(** * NutriVision: the image-preparation and request pipeline of [app.py]

    A shallow embedding of the three operations of [app.py]
    ([prepare_image], [encode_image_to_b64], [analyze_food_image]) and of
    the upload-size gate of the page script, together with the parts of the
    Python runtime, [base64], [requests] and Pillow they call.

    Conventions.
    - A Python [str] is a [string] holding its UTF-8 bytes; [bytes] is
      [list byte]; [int] is [Z]; [float] is a binary64 [float].
    - A call either returns or raises: [Outcome A].
    - Objects that the code mutates (an image that is decoded on first use,
      the requests that went out) are threaded explicitly.
    - What belongs to a collaborator whose text is not part of [app.py]
      (the JPEG codec, the resampler, the remote endpoint, the interpreter's
      float printing) is a field of a class, so every theorem holds for all
      implementations of it. *)

From Stdlib Require Import ZArith NArith List String Ascii Strings.Byte Bool Lia.
From Stdlib Require Import Floats QArith Qround Qabs DecimalString.
Import ListNotations.

Set Warnings "-register-all".

Open Scope list_scope.
Open Scope string_scope.
Open Scope Z_scope.

(* ================================================================= *)
(** ** Python values, exceptions and outcomes *)

Module Py.

(** The values the pipeline handles: what [json] parsing yields and what
    the request payload is made of. A [dict] keeps insertion order and its
    keys are [str] (JSON objects, and the literal payload of [app.py]). *)
Inductive pyval : Type :=
| PyNone
| PyBool (b : bool)
| PyInt (n : Z)
| PyFloat (x : float)
| PyStr (s : string)
| PyList (xs : list pyval)
| PyDict (kvs : list (string * pyval)).

(** Exceptions. [KeyError] keeps its key, since [str(KeyError(k))] is
    [repr(k)]; every other subclass of [Exception] is its class name and
    its [str]; [BaseExc] stands for the classes that derive from
    [BaseException] directly ([KeyboardInterrupt], [SystemExit]), which
    an [except Exception] clause does not catch. *)
Inductive exn : Type :=
| KeyError (key : pyval)
| Exc (cls : string) (msg : string)
| BaseExc (cls : string) (msg : string).

Definition IndexError (msg : string) : exn := Exc "IndexError" msg.
Definition TypeError (msg : string) : exn := Exc "TypeError" msg.
Definition ZeroDivisionError (msg : string) : exn := Exc "ZeroDivisionError" msg.

(** [isinstance(e, Exception)] *)
Definition is_Exception (e : exn) : bool :=
  match e with
  | BaseExc _ _ => false
  | _ => true
  end.

Inductive Outcome (A : Type) : Type :=
| Return (a : A)
| Raise (e : exn).
Arguments Return {A} a.
Arguments Raise {A} e.

Definition bind {A B} (m : Outcome A) (k : A -> Outcome B) : Outcome B :=
  match m with
  | Return a => k a
  | Raise e => Raise e
  end.

(** [try: body  except Exception as e: handler(e)] *)
Definition try_except {A} (body : Outcome A) (handler : exn -> Outcome A)
  : Outcome A :=
  match body with
  | Return a => Return a
  | Raise e => if is_Exception e then handler e else Raise e
  end.

(** What the interpreter fixes and [app.py] does not: the printing of
    floats, the [repr] of text outside ASCII, and the wording of the
    [TypeError] of a subscript and of a failed UTF-8 decode. *)
Class Interpreter : Type := {
  float_repr : float -> string;
  repr_unicode : string -> string;
  subscript_type_error : pyval -> pyval -> string;
  unicode_decode_error : list byte -> string
}.

(** *** [str] and [repr] *)

Definition int_repr (n : Z) : string := NilEmpty.string_of_int (Z.to_int n).

Definition nibble (n : N) : ascii :=
  ascii_of_N (if (n <? 10)%N then 48 + n else 87 + n).

Definition is_ascii (c : ascii) : bool := (N_of_ascii c <? 128)%N.

Fixpoint all_ascii (s : string) : bool :=
  match s with
  | EmptyString => true
  | String c r => is_ascii c && all_ascii r
  end.

Fixpoint contains_char (q : ascii) (s : string) : bool :=
  match s with
  | EmptyString => false
  | String c r => Ascii.eqb c q || contains_char q r
  end.

Definition squote : ascii := "'"%char.
Definition dquote : ascii := ascii_of_N 34.
Definition backslash : ascii := "\"%char.

(** The quote [repr] surrounds a [str] with: double quotes only when the
    text holds a single quote and no double quote. *)
Definition repr_quote (s : string) : ascii :=
  if contains_char squote s && negb (contains_char dquote s)
  then dquote else squote.

Definition escape_char (q c : ascii) : string :=
  let n := N_of_ascii c in
  if Ascii.eqb c q || Ascii.eqb c backslash then String backslash (String c "")
  else if (n =? 9)%N then "\t"
  else if (n =? 10)%N then "\n"
  else if (n =? 13)%N then "\r"
  else if (n <? 32)%N || (n =? 127)%N
       then String backslash (String "x" (String (nibble (n / 16)) (String (nibble (n mod 16)) "")))
  else String c "".

Fixpoint escape (q : ascii) (s : string) : string :=
  match s with
  | EmptyString => EmptyString
  | String c r => escape_char q c ++ escape q r
  end.

Fixpoint join (sep : string) (parts : list string) : string :=
  match parts with
  | [] => ""
  | [p] => p
  | p :: rest => p ++ sep ++ join sep rest
  end.

Section WithInterpreter.
Context `{Interpreter}.

Definition str_repr (s : string) : string :=
  if all_ascii s
  then let q := repr_quote s in String q (escape q s ++ String q "")
  else repr_unicode s.

Fixpoint py_repr (v : pyval) : string :=
  match v with
  | PyNone => "None"
  | PyBool true => "True"
  | PyBool false => "False"
  | PyInt n => int_repr n
  | PyFloat x => float_repr x
  | PyStr s => str_repr s
  | PyList xs => "[" ++ join ", " (map py_repr xs) ++ "]"
  | PyDict kvs =>
      "{" ++ join ", " (map (fun kv => str_repr (fst kv) ++ ": " ++ py_repr (snd kv)) kvs) ++ "}"
  end.

(** [str(v)], which is also what an f-string field [{v}] prints. *)
Definition py_str (v : pyval) : string :=
  match v with
  | PyStr s => s
  | _ => py_repr v
  end.

(** [str(e)] *)
Definition exn_str (e : exn) : string :=
  match e with
  | KeyError k => py_repr k
  | Exc _ msg => msg
  | BaseExc _ msg => msg
  end.

(** *** Subscripts *)

Fixpoint lookup (k : string) (kvs : list (string * pyval)) : option pyval :=
  match kvs with
  | [] => None
  | (k', v) :: rest => if String.eqb k k' then Some v else lookup k rest
  end.

(** A byte [10xxxxxx] continues the code point begun before it. *)
Definition is_continuation (c : ascii) : bool :=
  let n := N_of_ascii c in (128 <=? n)%N && (n <? 192)%N.

(** The code points of a [str], each as the text of its own bytes. *)
Fixpoint codepoints (s : string) : list string :=
  match s with
  | EmptyString => []
  | String c r =>
      match codepoints r with
      | [] => [String c ""]
      | p :: ps =>
          match p with
          | String c' _ =>
              if is_continuation c' then (String c p) :: ps
              else String c "" :: p :: ps
          | EmptyString => String c "" :: ps
          end
      end
  end.

(** Sequence indexing with Python's negative indices. *)
Definition seq_index {A} (xs : list A) (i : Z) : option A :=
  let n := Z.of_nat (List.length xs) in
  if ((0 <=? i) && (i <? n))%Z then nth_error xs (Z.to_nat i)
  else if ((- n <=? i) && (i <? 0))%Z then nth_error xs (Z.to_nat (n + i))
  else None.

(** [container[key]] for a [str] key *)
Definition getitem_str (container : pyval) (key : string) : Outcome pyval :=
  match container with
  | PyDict kvs =>
      match lookup key kvs with
      | Some v => Return v
      | None => Raise (KeyError (PyStr key))
      end
  | _ => Raise (TypeError (subscript_type_error container (PyStr key)))
  end.

(** [container[i]] for an [int] index *)
Definition getitem_int (container : pyval) (i : Z) : Outcome pyval :=
  match container with
  | PyList xs =>
      match seq_index xs i with
      | Some v => Return v
      | None => Raise (IndexError "list index out of range")
      end
  | PyStr s =>
      match seq_index (codepoints s) i with
      | Some c => Return (PyStr c)
      | None => Raise (IndexError "string index out of range")
      end
  | PyDict _ => Raise (KeyError (PyInt i))
  | _ => Raise (TypeError (subscript_type_error container (PyInt i)))
  end.

End WithInterpreter.

End Py.

Export Py.

Notation "x <- m ;; k" := (bind m (fun x => k))
  (at level 61, m at next level, right associativity).

(* ================================================================= *)
(** ** [base64.b64encode] and [bytes.decode("utf-8")] *)

Module Base64.

(** The standard alphabet (RFC 4648, section 4); output is not wrapped. *)
Definition alphabet : list byte :=
  list_byte_of_string
    "ABCDEFGHIJKLMNOPQRSTUVWXYZabcdefghijklmnopqrstuvwxyz0123456789+/".

Definition pad : byte := "="%byte.

Definition sextet_char (i : N) : byte := nth (N.to_nat i) alphabet pad.

Fixpoint index_of (c : byte) (cs : list byte) (i : N) : option N :=
  match cs with
  | [] => None
  | c' :: rest => if Byte.eqb c c' then Some i else index_of c rest (N.succ i)
  end.

Definition char_sextet (c : byte) : option N := index_of c alphabet 0%N.

Definition byte_of (n : N) : byte :=
  match Byte.of_N n with
  | Some b => b
  | None => "000"%byte
  end.

(** A group of 24 bits, read as four 6-bit numbers, most significant
    first. *)
Definition sextets (n : N) : N * N * N * N :=
  let s3 := (n mod 64)%N in
  let n1 := (n / 64)%N in
  let s2 := (n1 mod 64)%N in
  let n2 := (n1 / 64)%N in
  let s1 := (n2 mod 64)%N in
  let s0 := (n2 / 64)%N in
  (s0, s1, s2, s3).

Definition group (a b c : byte) : N :=
  ((Byte.to_N a * 256 + Byte.to_N b) * 256 + Byte.to_N c)%N.

Fixpoint b64encode (bs : list byte) : list byte :=
  match bs with
  | [] => []
  | [a] =>
      let '(s0, s1, _, _) := sextets (group a "000" "000") in
      [sextet_char s0; sextet_char s1; pad; pad]
  | [a; b] =>
      let '(s0, s1, s2, _) := sextets (group a b "000") in
      [sextet_char s0; sextet_char s1; sextet_char s2; pad]
  | a :: b :: c :: rest =>
      let '(s0, s1, s2, s3) := sextets (group a b c) in
      sextet_char s0 :: sextet_char s1 :: sextet_char s2 :: sextet_char s3
        :: b64encode rest
  end.

(** The 24 bits of four 6-bit numbers, as three bytes. *)
Definition octets (s0 s1 s2 s3 : N) : byte * byte * byte :=
  let n := (((s0 * 64 + s1) * 64 + s2) * 64 + s3)%N in
  (byte_of (n / 65536), byte_of ((n / 256) mod 256), byte_of (n mod 256)).

(** The decoder of the round trip: strict, padded groups only at the
    end. *)
Fixpoint b64decode (cs : list byte) : option (list byte) :=
  match cs with
  | [] => Some []
  | c0 :: c1 :: c2 :: c3 :: rest =>
      match char_sextet c0, char_sextet c1 with
      | Some s0, Some s1 =>
          if Byte.eqb c3 pad then
            match rest with
            | [] =>
                if Byte.eqb c2 pad then
                  let '(a, _, _) := octets s0 s1 0 0 in Some [a]
                else
                  match char_sextet c2 with
                  | Some s2 => let '(a, b, _) := octets s0 s1 s2 0 in Some [a; b]
                  | None => None
                  end
            | _ :: _ => None
            end
          else
            match char_sextet c2, char_sextet c3, b64decode rest with
            | Some s2, Some s3, Some tail =>
                let '(a, b, c) := octets s0 s1 s2 s3 in Some (a :: b :: c :: tail)
            | _, _, _ => None
            end
      | _, _ => None
      end
  | _ => None
  end.

Definition ascii_byte (b : byte) : bool := (Byte.to_N b <? 128)%N.

(** Well-formed UTF-8 (Unicode, table 3-7), which is what
    [bytes.decode("utf-8")] accepts. *)
Definition between (lo n hi : N) : bool := ((lo <=? n) && (n <=? hi))%N.

Fixpoint utf8_valid (bs : list byte) : bool :=
  match bs with
  | [] => true
  | b0 :: r0 =>
      let n0 := Byte.to_N b0 in
      if (n0 <? 128)%N then utf8_valid r0
      else
        match r0 with
        | [] => false
        | b1 :: r1 =>
            let n1 := Byte.to_N b1 in
            if between 194 n0 223 then between 128 n1 191 && utf8_valid r1
            else
              match r1 with
              | [] => false
              | b2 :: r2 =>
                  let n2 := Byte.to_N b2 in
                  if between 224 n0 239 then
                    between (if (n0 =? 224)%N then 160 else 128) n1
                            (if (n0 =? 237)%N then 159 else 191)
                    && between 128 n2 191 && utf8_valid r2
                  else
                    match r2 with
                    | [] => false
                    | b3 :: r3 =>
                        let n3 := Byte.to_N b3 in
                        between 240 n0 244
                        && between (if (n0 =? 240)%N then 144 else 128) n1
                                   (if (n0 =? 244)%N then 143 else 191)
                        && between 128 n2 191 && between 128 n3 191
                        && utf8_valid r3
                    end
              end
        end
  end.

Section Decode.
Context `{Interpreter}.

(** [bs.decode("utf-8")]: the text whose UTF-8 bytes are [bs]. *)
Definition bytes_decode_utf8 (bs : list byte) : Outcome string :=
  if utf8_valid bs then Return (string_of_list_byte bs)
  else Raise (Exc "UnicodeDecodeError" (unicode_decode_error bs)).

End Decode.

End Base64.

(* ================================================================= *)
(** ** Pillow: images, [thumbnail], JPEG [save] *)

Module PIL.

(** The codec and the resampler work on pixel data that [app.py] never
    looks into; they are the fields of this class.
    - [identify fp]: what [Image.open] reads off the head of a file, the
      format, the mode and the size (width, height); it raises when the
      bytes are no image it knows.
    - [decode_pixels fp]: the decoding that [load] does on first use.
    - [convert_pixels src dst px]: a change of mode.
    - [resample src dst px]: [resize] with the bicubic filter, from size
      [src] to size [dst].
    - [jpeg_encode mode size px quality]: the JPEG writer. *)
Class Pillow : Type := {
  Pixels : Type;
  identify : list byte -> Outcome (string * string * (Z * Z));
  decode_pixels : list byte -> Outcome Pixels;
  convert_pixels : string -> string -> Pixels -> Outcome Pixels;
  resample : Z * Z -> Z * Z -> Pixels -> Outcome Pixels;
  jpeg_encode : string -> Z * Z -> Pixels -> Z -> Outcome (list byte)
}.

Section Images.
Context `{Pillow}.

(** An image opened from a file holds the file until its pixels are first
    needed; afterwards it holds the pixels. *)
Inductive ImageData : Type :=
| Pending (fp : list byte)
| Loaded (px : Pixels).

Record Image : Type := {
  im_format : option string;
  im_mode : string;
  im_size : Z * Z;
  im_data : ImageData
}.

Definition width (im : Image) : Z := fst (im_size im).
Definition height (im : Image) : Z := snd (im_size im).

(** [Image.open(fp)]: lazy, only the header is read. *)
Definition Image_open (fp : list byte) : Outcome Image :=
  h <- identify fp ;;
  let '(fmt, m, sz) := h in
  Return {| im_format := Some fmt; im_mode := m; im_size := sz;
            im_data := Pending fp |}.

(** [im.load()]: decodes on first use and keeps the pixels; returns them
    with the image as it is afterwards. When decoding raises, the image is
    as before. *)
Definition load (im : Image) : Outcome (Pixels * Image) :=
  match im_data im with
  | Loaded px => Return (px, im)
  | Pending fp =>
      px <- decode_pixels fp ;;
      Return (px, {| im_format := im_format im; im_mode := im_mode im;
                     im_size := im_size im; im_data := Loaded px |})
  end.

(** [im.convert(mode)]: a new image; a copy when the mode is the same. *)
Definition convert (im : Image) (m : string) : Outcome Image :=
  l <- load im ;;
  let '(px, _) := l in
  px' <- (if String.eqb m (im_mode im) then Return px
          else convert_pixels (im_mode im) m px) ;;
  Return {| im_format := None; im_mode := m; im_size := im_size im;
            im_data := Loaded px' |}.

(** *** [thumbnail]

    Pillow computes the target size in binary64; here the same formulas are
    evaluated over the rationals. *)

(** [min(a, b, key=key)]: the first of the two unless the second has a
    strictly smaller key. *)
Definition min_by (key : Z -> Q) (a b : Z) : Z :=
  if Qle_bool (key a) (key b) then a else b.

(** [max(min(floor(number), ceil(number), key=key), 1)] *)
Definition round_aspect (number : Q) (key : Z -> Q) : Z :=
  Z.max (min_by key (Qfloor number) (Qceiling number)) 1.

(** True division, which raises on a zero divisor. *)
Definition truediv (a b : Q) : Outcome Q :=
  if Qeq_bool b 0 then Raise (ZeroDivisionError "division by zero")
  else Return (a / b)%Q.

(** [preserve_aspect_ratio()]: [None] when the image already fits. *)
Definition preserve_aspect_ratio (provided : Z * Z) (im : Image)
  : Outcome (option (Z * Z)) :=
  let '(x, y) := provided in
  if ((x >=? width im) && (y >=? height im))%Z then Return None
  else
    aspect <- truediv (inject_Z (width im)) (inject_Z (height im)) ;;
    ratio <- truediv (inject_Z x) (inject_Z y) ;;
    if Qle_bool aspect ratio then
      let x' := round_aspect (inject_Z y * aspect)
                  (fun n => Qabs (aspect - inject_Z n / inject_Z y)) in
      Return (Some (x', y))
    else
      target <- truediv (inject_Z x) aspect ;;
      let y' := round_aspect target
                  (fun n => if (n =? 0)%Z then 0%Q
                            else Qabs (aspect - inject_Z x / inject_Z n)) in
      Return (Some (x, y')).


Definition size_eqb (a b : Z * Z) : bool :=
  ((fst a =? fst b) && (snd a =? snd b))%Z.

(** [im.thumbnail(size)]: in place. The image here is never a file still
    to be decoded by a scaling decoder ([draft] gives nothing), so the
    pixels are loaded and resampled. *)
Definition thumbnail (im : Image) (size : Z * Z) : Outcome Image :=
  p <- preserve_aspect_ratio size im ;;
  match p with
  | None => Return im
  | Some _ =>
      l <- load im ;;
      let '(px, im1) := l in
      p' <- preserve_aspect_ratio size im1 ;;
      match p' with
      | None => Return im1
      | Some final =>
          if size_eqb (im_size im1) final then Return im1
          else
            px' <- resample (im_size im1) final px ;;
            Return {| im_format := im_format im1; im_mode := im_mode im1;
                      im_size := final; im_data := Loaded px' |}
      end
  end.

(** [im.save(buf, format="JPEG", quality=q)]: the bytes written, and the
    image as it is afterwards (loaded). *)
Definition save_jpeg (im : Image) (quality : Z)
  : Outcome (list byte) * Image :=
  match load im with
  | Raise e => (Raise e, im)
  | Return (px, im1) => (jpeg_encode (im_mode im1) (im_size im1) px quality, im1)
  end.

End Images.

(** What the pipeline relies on from the codec and the resampler. JPEG
    holds images of 1 to 65500 pixels a side; an RGB image of such a size
    can be written at any quality; what was written opens again as a JPEG
    of the size that was written (RGB for RGB), and decodes. Any mode
    converts to RGB, and resampling to a size of at least one pixel a side
    succeeds. *)
Definition jpeg_dimension (n : Z) : Prop := 1 <= n <= 65500.

Record Contract `{Pillow} : Prop := {
  converts_to_rgb :
    forall m px, exists px', convert_pixels m "RGB" px = Return px';
  resamples :
    forall src dst px, 1 <= fst dst -> 1 <= snd dst ->
      exists px', resample src dst px = Return px';
  jpeg_writes_rgb :
    forall sz px q, jpeg_dimension (fst sz) -> jpeg_dimension (snd sz) ->
      exists bs, jpeg_encode "RGB" sz px q = Return bs;
  jpeg_written_size :
    forall m sz px q bs, jpeg_encode m sz px q = Return bs ->
      jpeg_dimension (fst sz) /\ jpeg_dimension (snd sz);
  jpeg_reads_back :
    forall m sz px q bs, jpeg_encode m sz px q = Return bs ->
      exists m', identify bs = Return ("JPEG", m', sz)
                 /\ (m = "RGB" -> m' = "RGB")
                 /\ exists px', decode_pixels bs = Return px'
}.

End PIL.

(* ================================================================= *)
(** ** requests: responses and [post] *)

Module Requests.

Record Response : Type := {
  status_code : Z;
  reason : string;
  url : string;
  json : Outcome pyval
}.

Definition HTTPError (msg : string) : exn := Exc "HTTPError" msg.

(** [resp.raise_for_status()] *)
Definition raise_for_status (resp : Response) : Outcome unit :=
  let describe kind :=
    int_repr (status_code resp) ++ kind ++ reason resp ++ " for url: " ++ url resp in
  if ((400 <=? status_code resp) && (status_code resp <? 500))%Z
  then Raise (HTTPError (describe " Client Error: "))
  else if ((500 <=? status_code resp) && (status_code resp <? 600))%Z
  then Raise (HTTPError (describe " Server Error: "))
  else Return tt.

(** [resp.ok]: whether [raise_for_status] would pass. *)
Definition ok (resp : Response) : bool :=
  match raise_for_status resp with
  | Return _ => true
  | Raise _ => false
  end.

Record Request : Type := {
  req_url : string;
  req_headers : list (string * string);
  req_json : pyval;
  req_timeout : Z
}.

(** The remote side: what comes back for a request, or the exception
    [requests] raises (connection failure, timeout). *)
Class Network : Type := {
  endpoint : Request -> Outcome Response
}.

(** [requests.post(url, headers=..., json=..., timeout=...)]: one request
    goes out and is added to those sent so far. *)
Definition post `{Network} (req : Request) (sent : list Request)
  : Outcome Response * list Request :=
  (endpoint req, (sent ++ [req])%list).

End Requests.

(* ================================================================= *)
(** ** [app.py] *)

Module App.

Import Base64 PIL Requests.

Definition GROQ_API_URL : string :=
  "https://api.groq.com/openai/v1/chat/completions".
Definition MODEL_NAME : string :=
  "meta-llama/llama-4-scout-17b-16e-instruct".

(** What [st.file_uploader] hands over: a file object with its name, its
    size in bytes as the uploader reports it, and its content. *)
Record UploadedFile : Type := {
  name : string;
  size : Z;
  content : list byte
}.

(** How a run of the page script goes on after a block: on to the next
    block, halted by [st.stop()], or ended by an exception nobody caught. *)
Inductive Flow (A : Type) : Type :=
| Continue (a : A)
| Stopped
| Crashed (e : exn).
Arguments Continue {A} a.
Arguments Stopped {A}.
Arguments Crashed {A} e.

Section Pipeline.
Context `{Interpreter} `{Pillow} `{Network}.

(** The credential the module reads at start-up; without one the script
    halts before any of the code below runs. *)
Variable GROQ_API_KEY : string.

Definition HEADERS : list (string * string) :=
  [("Authorization", "Bearer " ++ GROQ_API_KEY);
   ("Content-Type", "application/json")].

(** *** Safe image compression *)

Definition prepare_image (uploaded_file : UploadedFile) : Outcome Image :=
  opened <- Image_open (content uploaded_file) ;;
  img <- convert opened "RGB" ;;
  (* resize to safe resolution *)
  img <- thumbnail img (900, 900) ;;
  (* compress *)
  buf <- fst (save_jpeg img 75) ;;
  Image_open buf.

(** *** Base64 encode *)

(** The text, and the image as the call leaves it. *)
Definition encode_image_to_b64 (image : Image) : Outcome string * Image :=
  let '(saved, image') := save_jpeg image 80 in
  (buf <- saved ;; bytes_decode_utf8 (b64encode buf), image').

(** *** API call *)

(** The [payload] literal. *)
Definition build_payload (prompt img_b64 : string) (temperature : float)
  : pyval :=
  PyDict
    [("model", PyStr MODEL_NAME);
     ("messages",
       PyList
         [PyDict
            [("role", PyStr "user");
             ("content",
               PyList
                 [PyDict [("type", PyStr "text"); ("text", PyStr prompt)];
                  PyDict
                    [("type", PyStr "image_url");
                     ("image_url",
                       PyDict
                         [("url", PyStr ("data:image/jpeg;base64," ++ img_b64))])]])]]);
     ("max_tokens", PyInt 700);
     ("temperature", PyFloat temperature);
     ("stream", PyBool false)].

Definition build_request (payload : pyval) : Request :=
  {| req_url := GROQ_API_URL; req_headers := HEADERS;
     req_json := payload; req_timeout := 120 |}.

Definition too_large_advisory : string :=
  "⚠️ The image is still too large. Try uploading a smaller image.".

(** The [if not resp.ok:] statement: [Some v] when it returns [v] from the
    function, [None] when control goes on below it. *)
Definition not_ok_block (resp : Response) : Outcome (option pyval) :=
  if negb (ok resp) then
    try_except
      (body <- json resp ;;
       Return (Some (PyStr ("⚠️ API error " ++ int_repr (status_code resp)
                              ++ ": " ++ py_str body))))
      (fun _ => _ <- raise_for_status resp ;; Return None)
  else Return None.

(** [data["choices"][0]["message"]["content"]] *)
Definition first_choice_content (data : pyval) : Outcome pyval :=
  choices <- getitem_str data "choices" ;;
  first <- getitem_int choices 0 ;;
  message <- getitem_str first "message" ;;
  getitem_str message "content".

(** The statements of the [try] block that follow the [post]. *)
Definition handle_response (resp : Response) : Outcome pyval :=
  if status_code resp =? 413 then Return (PyStr too_large_advisory)
  else
    r <- not_ok_block resp ;;
    match r with
    | Some v => Return v
    | None =>
        data <- json resp ;;
        first_choice_content data
    end.

Definition communication_error (e : exn) : string :=
  "⚠️ Error communicating with Groq API: " ++ exn_str e.

(** [analyze_food_image(prompt, image, temperature)], given the requests
    sent so far: what the call returns or raises, the image as the call
    leaves it, and the requests sent by then. *)
Definition analyze_food_image (prompt : string) (image : Image)
  (temperature : float) (sent : list Request)
  : Outcome pyval * Image * list Request :=
  match encode_image_to_b64 image with
  | (Raise e, image') => (Raise e, image', sent)
  | (Return img_b64, image') =>
      let payload := build_payload prompt img_b64 temperature in
      let '(posted, sent') := post (build_request payload) sent in
      (try_except (resp <- posted ;; handle_response resp)
         (fun e => Return (PyStr (communication_error e))),
       image', sent')
  end.

(** What a call returned or raised, and the requests sent by its end. *)
Definition returned {A B C : Type} (r : A * B * C) : A := fst (fst r).
Definition requests_sent {A B C : Type} (r : A * B * C) : C := snd r.

(** *** The page script: image upload *)

(** What the block puts on the page. *)
Inductive UiEvent : Type :=
| st_error (msg : string)
| st_image (image : Image) (caption : string).

Definition size_error : string := "❌ Image too large. Upload < 4MB.".

(** The two statements after the size check. *)
Definition show_prepared (uploaded : UploadedFile)
  : list UiEvent * Flow (option Image) :=
  match prepare_image uploaded with
  | Raise e => ([], Crashed e)
  | Return image => ([st_image image "Uploaded Image"], Continue (Some image))
  end.

(** [if uploaded: ...], with [image = None] before it. *)
Definition upload_block (uploaded : option UploadedFile)
  : list UiEvent * Flow (option Image) :=
  match uploaded with
  | None => ([], Continue None)
  | Some up =>
      if size up >? 4 * 1024 * 1024 then ([st_error size_error], Stopped)
      else show_prepared up
  end.

End Pipeline.

End App.

(* ================================================================= *)
(** ** The page script of [app.py], from start-up to footer *)

Module Page.

Import Base64 PIL Requests App.

(** [bool(v)]: what [if not v] tests. *)
Definition truthy (v : pyval) : bool :=
  match v with
  | PyNone => false
  | PyBool b => b
  | PyInt n => negb (n =? 0)
  | PyFloat x => negb (PrimFloat.eqb x 0%float)
  | PyStr s => negb (String.eqb s "")
  | PyList xs => match xs with [] => false | _ :: _ => true end
  | PyDict kvs => match kvs with [] => false | _ :: _ => true end
  end.

(** What one run of the script reads: the environment variable after
    [load_dotenv()] ([os.getenv] gives [None] or a [str]), what
    [st.secrets["GROQ_API_KEY"]] gives or raises, and the values of the
    four widgets. *)
Record Inputs : Type := {
  env_key : option string;
  secret_key : Outcome pyval;
  slider : float;
  text_area : string;
  file_uploader : option UploadedFile;
  button : bool
}.

Definition missing_key_error : string :=
  "❌ Missing GROQ_API_KEY. Add it to .env (local) or Streamlit Secrets (cloud).".

Definition title : string :=
  "🥗 NutriVision — AI-Powered Food & Calorie Analyzer".

Definition footer : string :=
  "Built with ❤️ Jasmin — Powered by Groq Vision".

(** Load environment variables: the value of [GROQ_API_KEY] after the
    first [if not GROQ_API_KEY:] statement. *)
Definition load_key (env : option string) (secret : Outcome pyval)
  : Outcome pyval :=
  let from_env := match env with Some s => PyStr s | None => PyNone end in
  if negb (truthy from_env)
  then try_except secret (fun _ => Return PyNone)
  else Return from_env.

Section Script.
Context `{Interpreter} `{Pillow} `{Network}.

(** What a run puts on the page, in order; [block] is an element put
    there by [st.error] or [st.image]. *)
Inductive PageEvent : Type :=
| block (e : UiEvent)
| st_title (text : string)
| sidebar_header (text : string)
| st_warning (msg : string)
| st_subheader (text : string)
| st_write (v : pyval)
| st_caption (text : string).

(** [if st.button("Analyze"): ...], with the key the headers were built
    from. The spinner is gone when the block ends and leaves nothing on
    the page. *)
Definition analyze_block (GROQ_API_KEY : string) (clicked : bool)
  (image : option Image) (user_prompt : string) (temperature : float)
  (sent : list Request)
  : list PageEvent * Flow unit * list Request :=
  if clicked then
    match image with
    | None =>
        ([st_warning "Please upload a meal image first."], Continue tt, sent)
    | Some im =>
        match analyze_food_image GROQ_API_KEY user_prompt im temperature sent with
        | (Return result, _, sent') =>
            ([st_subheader "🧠 AI Analysis"; st_write result], Continue tt, sent')
        | (Raise e, _, sent') => ([], Crashed e, sent')
        end
    end
  else ([], Continue tt, sent).

(** One run of the script: what it shows, how it ends, and the requests
    it sent. [HEADERS] is built once, from [f"Bearer {GROQ_API_KEY}"].
    [st.image] reads the image it shows; the image goes on to the analyze
    block as [prepare_image] returned it. *)
Definition run (i : Inputs) : list PageEvent * Flow unit * list Request :=
  match load_key (env_key i) (secret_key i) with
  | Raise e => ([], Crashed e, [])
  | Return key =>
      if negb (truthy key)
      then ([block (st_error missing_key_error)], Stopped, [])
      else
        let head := [st_title title; sidebar_header "Model Settings"] in
        match upload_block (file_uploader i) with
        | (shown, Stopped) => ((head ++ map block shown)%list, Stopped, [])
        | (shown, Crashed e) => ((head ++ map block shown)%list, Crashed e, [])
        | (shown, Continue image) =>
            match analyze_block (py_str key) (button i) image
                    (text_area i) (slider i) [] with
            | (out, Continue _, sent) =>
                ((head ++ map block shown ++ out ++ [st_caption footer])%list,
                 Continue tt, sent)
            | (out, Stopped, sent) =>
                ((head ++ map block shown ++ out)%list, Stopped, sent)
            | (out, Crashed e, sent) =>
                ((head ++ map block shown ++ out)%list, Crashed e, sent)
            end
        end
  end.

End Script.

End Page.

(* ================================================================= *)
(** ** A small concrete world

    One implementation of every collaborator, on which the operations can
    be run: a codec whose files begin with a tag byte and the two sizes in
    two bytes each, and endpoints that answer every request with one fixed
    response. *)

Module Mock.

Import Base64 PIL Requests App.

Definition one : float := 1%float.
Definition zero : float := 0%float.

#[export] Instance interpreter : Interpreter := {|
  float_repr := fun x => if PrimFloat.eqb x zero then "0.0"
                         else if PrimFloat.eqb x one then "1.0" else "0.3";
  repr_unicode := fun s => String squote (s ++ String squote "");
  subscript_type_error := fun _ _ => "object is not subscriptable";
  unicode_decode_error := fun _ => "'utf-8' codec can't decode bytes"
|}.

Definition byte_of_Z (z : Z) : byte := byte_of (Z.to_N z).
Definition Z_of_byte (b : byte) : Z := Z.of_N (Byte.to_N b).

Definition tag_jpeg : byte := "J"%byte.
Definition tag_png : byte := "P"%byte.

Definition header (tag : byte) (sz : Z * Z) : list byte :=
  [tag; byte_of_Z (fst sz / 256); byte_of_Z (fst sz mod 256);
        byte_of_Z (snd sz / 256); byte_of_Z (snd sz mod 256)].

Definition in_range (n : Z) : bool := (1 <=? n) && (n <=? 65500).

#[export] Instance pillow : Pillow := {|
  Pixels := unit;
  identify := fun fp =>
    match fp with
    | t :: a :: b :: c :: d :: _ =>
        let sz := (Z_of_byte a * 256 + Z_of_byte b,
                   Z_of_byte c * 256 + Z_of_byte d) in
        if Byte.eqb t tag_jpeg then Return ("JPEG", "RGB", sz)
        else if Byte.eqb t tag_png then Return ("PNG", "RGBA", sz)
        else Raise (Exc "UnidentifiedImageError" "cannot identify image file")
    | _ => Raise (Exc "UnidentifiedImageError" "cannot identify image file")
    end;
  decode_pixels := fun _ => Return tt;
  convert_pixels := fun _ _ px => Return px;
  resample := fun _ _ px => Return px;
  jpeg_encode := fun m sz _ _ =>
    if String.eqb m "RGB" && in_range (fst sz) && in_range (snd sz)
    then Return (header tag_jpeg sz)
    else Raise (Exc "OSError" ("cannot write mode " ++ m ++ " as JPEG"))
|}.

(** An endpoint that answers every request with [resp]. *)
Definition answering (resp : Response) : Network :=
  {| endpoint := fun _ => Return resp |}.


Definition response (status : Z) (phrase : string) (body : Outcome pyval)
  : Response :=
  {| status_code := status; reason := phrase; url := GROQ_API_URL;
     json := body |}.

Definition completion (content : pyval) : pyval :=
  PyDict [("choices", PyList [PyDict [("message", PyDict [("content", content)])]])].

Definition apple : Response :=
  response 200 "OK" (Return (completion (PyStr "Apple — ~95 cal"))).


Definition payload_too_large : Response :=
  response 413 "Payload Too Large"
    (Return (PyDict [("error", PyStr "request entity too large")])).

Definition server_error : Response :=
  response 500 "Internal Server Error"
    (Return (PyDict [("error", PyStr "bad request")])).

Definition found : Response :=
  response 302 "Found" (Return (PyDict [("error", PyStr "moved")])).

Definition bad_gateway : Response :=
  response 502 "Bad Gateway"
    (Raise (Exc "JSONDecodeError" "Expecting value: line 1 column 1 (char 0)")).

(** A file of [n] bytes: the header, then filling. *)
Definition file_of (n : Z) (tag : byte) (sz : Z * Z) : list byte :=
  (header tag sz ++ repeat "000"%byte (Z.to_nat (n - 5)))%list.

(** A PNG upload of 1200 by 800 pixels and exactly 4 MiB, one of 640 by
    480 pixels, and one of one byte more than 4 MiB. *)
Definition photo : UploadedFile :=
  {| name := "meal.png"; size := 4194304;
     content := file_of 4194304 tag_png (1200, 800) |}.

Definition small_photo : UploadedFile :=
  {| name := "snack.png"; size := 5;
     content := file_of 5 tag_png (640, 480) |}.


(** The image [prepare_image photo] returns, and an image with an alpha
    channel that was never prepared. *)
Definition prepared : Image :=
  {| im_format := Some "JPEG"; im_mode := "RGB"; im_size := (900, 600);
     im_data := Pending (header tag_jpeg (900, 600)) |}.

Definition with_alpha : Image :=
  {| im_format := Some "PNG"; im_mode := "RGBA"; im_size := (32, 32);
     im_data := Loaded tt |}.

Definition key : string := "gsk_test".

Definition question : string := "What is on the plate?".

End Mock.

(** Inputs of runs of the page on the concrete world. *)
Module MockPage.

Import Base64 PIL Requests App Page Mock.

(** A PNG upload of 1200 by 800 pixels in five bytes. *)
Definition snapshot : UploadedFile :=
  {| name := "lunch.png"; size := 5;
     content := file_of 5 tag_png (1200, 800) |}.

(** The key in the environment, the snapshot uploaded, the button
    pressed. *)
Definition pressed : Inputs :=
  {| env_key := Some key;
     secret_key := Raise (Exc "FileNotFoundError" "No secrets files found.");
     slider := one; text_area := question;
     file_uploader := Some snapshot; button := true |}.

(** No key anywhere. *)
Definition keyless : Inputs :=
  {| env_key := Some "";
     secret_key := Raise (Exc "FileNotFoundError" "No secrets files found.");
     slider := one; text_area := question;
     file_uploader := Some snapshot; button := true |}.

(** A file that is no image. *)
Definition scribble : UploadedFile :=
  {| name := "notes.png"; size := 5;
     content := list_byte_of_string "hello" |}.

(** A [KeyboardInterrupt] while the request is out. *)
Definition interrupted : Network :=
  {| endpoint := fun _ => Raise (BaseExc "KeyboardInterrupt" "") |}.

(** An answer 200 whose body is an object without ["choices"]. *)
Definition no_choices : Response :=
  response 200 "OK" (Return (PyDict [("id", PyStr "chatcmpl-1")])).

(** The request of the run [pressed]. *)
Definition the_request : Request :=
  @build_request key (build_payload question "SgOEAlg=" one).

End MockPage.

(* ================================================================= *)
(** ** Facts about base64 and UTF-8 *)

Module Base64Facts.

Import Base64.

Lemma below_64 (P : N -> bool) :
  forallb P (map N.of_nat (seq 0 64)) = true ->
  forall i, (i < 64)%N -> P i = true.
Proof.
  intros Hall i Hi.
  rewrite forallb_forall in Hall. apply Hall.
  apply in_map_iff. exists (N.to_nat i). split.
  - apply N2Nat.id.
  - apply in_seq. lia.
Qed.

Lemma char_sextet_char i :
  (i < 64)%N -> char_sextet (sextet_char i) = Some i.
Proof.
  intros Hi.
  pose (P := fun i => match char_sextet (sextet_char i) with
                      | Some j => N.eqb j i
                      | None => false
                      end).
  assert (HP : P i = true) by (apply below_64; [vm_compute; reflexivity | exact Hi]).
  unfold P in HP. destruct (char_sextet (sextet_char i)) as [j|]; [|discriminate].
  apply N.eqb_eq in HP. now subst.
Qed.

Lemma sextet_char_not_pad i :
  (i < 64)%N -> Byte.eqb (sextet_char i) pad = false.
Proof.
  intros Hi.
  pose (P := fun i => negb (Byte.eqb (sextet_char i) pad)).
  assert (HP : P i = true) by (apply below_64; [vm_compute; reflexivity | exact Hi]).
  unfold P in HP. now apply negb_true_iff in HP.
Qed.

Lemma sextet_char_ascii i : (Byte.to_N (sextet_char i) <? 128)%N = true.
Proof.
  destruct (N.lt_ge_cases i 64) as [Hi|Hi].
  - pose (P := fun i => (Byte.to_N (sextet_char i) <? 128)%N).
    change (P i = true). apply below_64; [vm_compute; reflexivity | exact Hi].
  - unfold sextet_char. rewrite nth_overflow; [reflexivity|].
    change (List.length alphabet) with 64%nat. lia.
Qed.

Ltac euclid := zify; Z.to_euclidean_division_equations; lia.

Lemma group_bound a b c : (group a b c < 16777216)%N.
Proof.
  unfold group.
  pose proof (Byte.to_N_bounded a). pose proof (Byte.to_N_bounded b).
  pose proof (Byte.to_N_bounded c). lia.
Qed.

Lemma byte_of_to_N b : byte_of (Byte.to_N b) = b.
Proof. unfold byte_of. now rewrite Byte.of_to_N. Qed.

(** The four 6-bit numbers of a group are below 64 and hold its 24 bits. *)
Lemma sextets_spec n s0 s1 s2 s3 :
  (n < 16777216)%N -> sextets n = (s0, s1, s2, s3) ->
  (s0 < 64 /\ s1 < 64 /\ s2 < 64 /\ s3 < 64 /\
   ((s0 * 64 + s1) * 64 + s2) * 64 + s3 = n)%N.
Proof.
  unfold sextets. intros Hn Heq. injection Heq as <- <- <- <-.
  repeat split; euclid.
Qed.

Lemma octets_group a b c s0 s1 s2 s3 :
  sextets (group a b c) = (s0, s1, s2, s3) ->
  octets s0 s1 s2 s3 = (a, b, c).
Proof.
  intros Heq.
  destruct (sextets_spec _ _ _ _ _ (group_bound a b c) Heq) as (_ & _ & _ & _ & Hn).
  unfold octets. rewrite Hn. unfold group.
  pose proof (Byte.to_N_bounded a). pose proof (Byte.to_N_bounded b).
  pose proof (Byte.to_N_bounded c).
  replace (((to_N a * 256 + to_N b) * 256 + to_N c) / 65536)%N with (to_N a) by euclid.
  replace ((((to_N a * 256 + to_N b) * 256 + to_N c) / 256) mod 256)%N with (to_N b) by euclid.
  replace (((to_N a * 256 + to_N b) * 256 + to_N c) mod 256)%N with (to_N c) by euclid.
  now rewrite !byte_of_to_N.
Qed.

(** A group that ends in zero bytes ends in zero 6-bit numbers. *)
Lemma sextets_tail_zero a b s0 s1 s2 s3 :
  sextets (group a b "000") = (s0, s1, s2, s3) -> s3 = 0%N.
Proof.
  unfold sextets, group. intros Heq. injection Heq as <- <- <- <-.
  change (to_N "000") with 0%N. euclid.
Qed.

Lemma sextets_tail_zero2 a s0 s1 s2 s3 :
  sextets (group a "000" "000") = (s0, s1, s2, s3) -> s2 = 0%N /\ s3 = 0%N.
Proof.
  unfold sextets, group. intros Heq. injection Heq as <- <- <- <-.
  change (to_N "000") with 0%N. split; euclid.
Qed.

Lemma list_ind3 {A} (P : list A -> Prop) :
  P [] -> (forall a, P [a]) -> (forall a b, P [a; b]) ->
  (forall a b c rest, P rest -> P (a :: b :: c :: rest)) ->
  forall l, P l.
Proof.
  intros H0 H1 H2 H3 l.
  assert (H : P l /\ (forall a, P (a :: l)) /\ (forall a b, P (a :: b :: l))).
  { induction l as [|x l (IH0 & IH1 & IH2)].
    - auto.
    - repeat split; auto. }
  apply H.
Qed.

(** Decoding what was encoded gives the bytes back. *)
Lemma b64decode_b64encode bs : b64decode (b64encode bs) = Some bs.
Proof.
  induction bs as [|a|a b|a b c rest IH] using list_ind3.
  - reflexivity.
  - cbn [b64encode].
    destruct (sextets (group a "000" "000")) as [[[s0 s1] s2] s3] eqn:Hs.
    destruct (sextets_spec _ _ _ _ _ (group_bound _ _ _) Hs) as (H0 & H1 & _).
    destruct (sextets_tail_zero2 _ _ _ _ _ Hs) as [-> ->].
    cbn [b64decode].
    rewrite !char_sextet_char by assumption.
    change (Byte.eqb pad pad) with true. cbn iota.
    now rewrite (octets_group _ _ _ _ _ _ _ Hs).
  - cbn [b64encode].
    destruct (sextets (group a b "000")) as [[[s0 s1] s2] s3] eqn:Hs.
    destruct (sextets_spec _ _ _ _ _ (group_bound _ _ _) Hs) as (H0 & H1 & H2 & _).
    pose proof (sextets_tail_zero _ _ _ _ _ _ Hs) as ->.
    cbn [b64decode].
    rewrite !char_sextet_char by assumption.
    change (Byte.eqb pad pad) with true. cbn iota.
    rewrite sextet_char_not_pad by assumption.
    now rewrite (octets_group _ _ _ _ _ _ _ Hs).
  - cbn [b64encode].
    destruct (sextets (group a b c)) as [[[s0 s1] s2] s3] eqn:Hs.
    destruct (sextets_spec _ _ _ _ _ (group_bound _ _ _) Hs) as (H0 & H1 & H2 & H3 & _).
    cbn [b64decode]. fold b64decode.
    rewrite !char_sextet_char by assumption.
    rewrite sextet_char_not_pad by assumption.
    rewrite IH.
    now rewrite (octets_group _ _ _ _ _ _ _ Hs).
Qed.

Lemma b64encode_ascii bs : forallb ascii_byte (b64encode bs) = true.
Proof.
  induction bs as [|a|a b|a b c rest IH] using list_ind3; cbn [b64encode].
  - reflexivity.
  - destruct (sextets _) as [[[s0 s1] s2] s3].
    cbn [forallb]. unfold ascii_byte at 1 2. now rewrite !sextet_char_ascii.
  - destruct (sextets _) as [[[s0 s1] s2] s3].
    cbn [forallb]. unfold ascii_byte at 1 2 3. now rewrite !sextet_char_ascii.
  - destruct (sextets _) as [[[s0 s1] s2] s3].
    cbn [forallb]. unfold ascii_byte at 1 2 3 4. now rewrite !sextet_char_ascii.
Qed.

Lemma utf8_valid_ascii bs : forallb ascii_byte bs = true -> utf8_valid bs = true.
Proof.
  induction bs as [|b bs IH]; [reflexivity|].
  cbn [forallb]. intros Hb. apply andb_prop in Hb as [Hb Hbs].
  cbn [utf8_valid]. unfold ascii_byte in Hb. rewrite Hb. auto.
Qed.

(** Base64 text always decodes as UTF-8, to itself. *)
Lemma bytes_decode_b64encode `{Interpreter} bs :
  bytes_decode_utf8 (b64encode bs) = Return (string_of_list_byte (b64encode bs)).
Proof.
  unfold bytes_decode_utf8.
  now rewrite (utf8_valid_ascii _ (b64encode_ascii bs)).
Qed.

End Base64Facts.

(* ================================================================= *)
(** ** Facts about images *)

Module PILFacts.

Import PIL.

Lemma bind_Return {A B} (m : Outcome A) (k : A -> Outcome B) b :
  bind m k = Return b -> exists a, m = Return a /\ k a = Return b.
Proof. destruct m as [a|e]; cbn; [eauto | discriminate]. Qed.








Section WithPillow.
Context `{Pillow}.


Lemma load_loaded (im : Image) px :
  im_data im = Loaded px -> load im = Return (px, im).
Proof. unfold load. now intros ->. Qed.

Lemma load_keeps (im im1 : Image) px :
  load im = Return (px, im1) ->
  im_data im1 = Loaded px /\ im_mode im1 = im_mode im /\
  im_size im1 = im_size im /\ im_format im1 = im_format im.
Proof.
  unfold load. destruct (im_data im) as [fp|px0] eqn:E.
  - destruct (decode_pixels fp); cbn; [|discriminate].
    intros [= <- <-]. cbn. auto.
  - intros [= <- <-]. auto.
Qed.

(** Once loaded, an image loads to itself. *)
Lemma load_idempotent (im im1 : Image) px :
  load im = Return (px, im1) -> load im1 = Return (px, im1).
Proof. intros Hl. apply load_loaded. now apply load_keeps in Hl. Qed.





End WithPillow.

End PILFacts.

(* ================================================================= *)
(** ** The operations of [app.py] *)

Module AppFacts.

Import Base64 PIL Requests App Base64Facts PILFacts.

Section Pipeline.
Context `{Interpreter} `{Pillow} `{Network}.
Variable GROQ_API_KEY : string.

(** *** [prepare_image] *)

Lemma Image_open_Return fp im :
  Image_open fp = Return im ->
  exists fmt m sz,
    identify fp = Return (fmt, m, sz) /\
    im = {| im_format := Some fmt; im_mode := m; im_size := sz;
            im_data := Pending fp |}.
Proof.
  unfold Image_open. intros Ho.
  apply bind_Return in Ho as ([[fmt m] sz] & Hid & [= <-]). eauto.
Qed.

Lemma convert_Return im m im' :
  convert im m = Return im' ->
  im_mode im' = m /\ im_size im' = im_size im /\
  exists px, im_data im' = Loaded px.
Proof.
  unfold convert. intros Hc.
  apply bind_Return in Hc as ([px im1] & Hl & Hc).
  apply bind_Return in Hc as (px' & _ & [= <-]). cbn. eauto.
Qed.

Lemma thumbnail_Return im sz im' px :
  thumbnail im sz = Return im' -> im_data im = Loaded px ->
  im_mode im' = im_mode im /\ exists px', im_data im' = Loaded px'.
Proof.
  unfold thumbnail. intros Ht Hd.
  apply bind_Return in Ht as ([final|] & _ & Ht).
  - rewrite (load_loaded _ _ Hd) in Ht. cbn [bind] in Ht.
    apply bind_Return in Ht as ([final'|] & _ & Ht).
    + destruct (size_eqb _ _).
      * injection Ht as <-. eauto.
      * apply bind_Return in Ht as (px' & _ & [= <-]). cbn. eauto.
    + injection Ht as <-. eauto.
  - injection Ht as <-. eauto.
Qed.

(** Whatever [prepare_image] returns is a JPEG file just written from an
    RGB image, not yet decoded. *)
Lemma prepare_image_Return (C : Contract) uploaded_file image :
  prepare_image uploaded_file = Return image ->
  exists sz px buf,
    jpeg_encode "RGB" sz px 75 = Return buf /\
    image = {| im_format := Some "JPEG"; im_mode := "RGB"; im_size := sz;
               im_data := Pending buf |}.
Proof.
  unfold prepare_image. intros Hp.
  apply bind_Return in Hp as (opened & _ & Hp).
  apply bind_Return in Hp as (img1 & Hc & Hp).
  apply bind_Return in Hp as (img2 & Ht & Hp).
  apply bind_Return in Hp as (buf & Hs & Ho).
  apply convert_Return in Hc as (Hm1 & _ & px1 & Hd1).
  destruct (thumbnail_Return _ _ _ _ Ht Hd1) as (Hm2 & px2 & Hd2).
  unfold save_jpeg in Hs. rewrite (load_loaded _ _ Hd2) in Hs. cbn in Hs.
  rewrite Hm2, Hm1 in Hs.
  destruct (jpeg_reads_back C _ _ _ _ _ Hs) as (m' & Hid & Hrgb & _).
  apply Image_open_Return in Ho as (fmt & m & sz & Hid' & ->).
  rewrite Hid in Hid'. injection Hid' as <- <- <-.
  rewrite (Hrgb eq_refl). eauto.
Qed.



(** *** [encode_image_to_b64] *)

(** Encoding an image that [prepare_image] made: it is decoded, written
    again at quality 80, and the text is the base64 of what was written. *)
Lemma encode_image_to_b64_prepared (C : Contract) sz px buf :
  jpeg_encode "RGB" sz px 75 = Return buf ->
  exists px' jpeg,
    decode_pixels buf = Return px' /\
    jpeg_encode "RGB" sz px' 80 = Return jpeg /\
    encode_image_to_b64
      {| im_format := Some "JPEG"; im_mode := "RGB"; im_size := sz;
         im_data := Pending buf |}
    = (Return (string_of_list_byte (b64encode jpeg)),
       {| im_format := Some "JPEG"; im_mode := "RGB"; im_size := sz;
          im_data := Loaded px' |}).
Proof.
  intros Hbuf.
  destruct (jpeg_reads_back C _ _ _ _ _ Hbuf) as (_ & _ & _ & px' & Hpx').
  destruct (jpeg_written_size C _ _ _ _ _ Hbuf) as [Hw Hh].
  destruct (jpeg_writes_rgb C sz px' 80 Hw Hh) as [jpeg Hjpeg].
  exists px', jpeg. split; [exact Hpx'|]. split; [exact Hjpeg|].
  unfold encode_image_to_b64, save_jpeg, load. cbn [im_data].
  rewrite Hpx'. cbn [bind im_mode im_size im_format]. rewrite Hjpeg.
  cbn [bind]. now rewrite bytes_decode_b64encode.
Qed.

(** C6: for every image that [prepare_image] returns,
    [encode_image_to_b64] returns a text whose base64 decoding is a file
    that opens as a JPEG of the pixel size of the image, and decodes. The
    codec is any that meets [Contract]. *)
Theorem encode_image_to_b64_round_trip (C : Contract) uploaded_file image :
  prepare_image uploaded_file = Return image ->
  exists text jpeg m px,
    fst (encode_image_to_b64 image) = Return text /\
    b64decode (list_byte_of_string text) = Some jpeg /\
    identify jpeg = Return ("JPEG", m, im_size image) /\
    decode_pixels jpeg = Return px.
Proof.
  intros Hp.
  destruct (prepare_image_Return C _ _ Hp) as (sz & px & buf & Hbuf & ->).
  destruct (encode_image_to_b64_prepared C _ _ _ Hbuf)
    as (px' & jpeg & _ & Hjpeg & ->).
  destruct (jpeg_reads_back C _ _ _ _ _ Hjpeg) as (m & Hid & _ & px2 & Hpx2).
  exists (string_of_list_byte (b64encode jpeg)), jpeg, m, px2.
  cbn [fst im_size].
  now rewrite list_byte_of_string_of_list_byte, b64decode_b64encode.
Qed.


(** *** [analyze_food_image] *)

Lemma getitem_str_raises container k e :
  getitem_str container k = Raise e -> is_Exception e = true.
Proof.
  destruct container; cbn; try (now intros [= <-]).
  destruct (lookup k kvs); [discriminate | now intros [= <-]].
Qed.

Lemma getitem_int_raises container i e :
  getitem_int container i = Raise e -> is_Exception e = true.
Proof.
  destruct container; cbn; try (now intros [= <-]).
  - destruct (seq_index (codepoints s) i); [discriminate | now intros [= <-]].
  - destruct (seq_index xs i); [discriminate | now intros [= <-]].
Qed.

Lemma getitem_int_first x xs : getitem_int (PyList (x :: xs)) 0 = Return x.
Proof.
  unfold getitem_int, seq_index.
  replace ((0 <=? 0) && (0 <? Z.of_nat (List.length (x :: xs))))%Z with true;
    [reflexivity|].
  symmetry. apply andb_true_intro. split; [reflexivity|].
  apply Z.ltb_lt. cbn [List.length]. lia.
Qed.

(** A failed access into the body is a [KeyError], an [IndexError] or a
    [TypeError]: an [Exception]. *)
Lemma first_choice_content_raises data e :
  first_choice_content data = Raise e -> is_Exception e = true.
Proof.
  unfold first_choice_content.
  destruct (getitem_str data "choices") as [choices|e1] eqn:E1; cbn [bind];
    [|intros [= <-]; eapply getitem_str_raises; eassumption].
  destruct (getitem_int choices 0) as [first|e2] eqn:E2; cbn [bind];
    [|intros [= <-]; eapply getitem_int_raises; eassumption].
  destruct (getitem_str first "message") as [message|e3] eqn:E3; cbn [bind];
    [|intros [= <-]; eapply getitem_str_raises; eassumption].
  apply getitem_str_raises.
Qed.

(** [resp.ok] fails exactly on the statuses 400 to 599, and there
    [raise_for_status] raises an [HTTPError]. *)
Lemma ok_false_iff resp : ok resp = false <-> 400 <= status_code resp < 600.
Proof.
  unfold ok, raise_for_status.
  destruct ((400 <=? status_code resp) && (status_code resp <? 500))%Z eqn:E4;
    [split; [lia | reflexivity]|].
  destruct ((500 <=? status_code resp) && (status_code resp <? 600))%Z eqn:E5;
    [split; [lia | reflexivity]|].
  split; [discriminate | lia].
Qed.

Lemma raise_for_status_not_ok resp :
  ok resp = false -> exists msg, raise_for_status resp = Raise (HTTPError msg).
Proof.
  unfold ok, raise_for_status.
  destruct ((400 <=? status_code resp) && (status_code resp <? 500))%Z; [eauto|].
  destruct ((500 <=? status_code resp) && (status_code resp <? 600))%Z; [eauto|].
  discriminate.
Qed.

(** Once the image is encoded, one request goes out and the rest of the
    call is the [try] statement around the answer. *)
Lemma analyze_food_image_encoded prompt image temperature sent img_b64 :
  fst (encode_image_to_b64 image) = Return img_b64 ->
  let req := build_request GROQ_API_KEY (build_payload prompt img_b64 temperature) in
  analyze_food_image GROQ_API_KEY prompt image temperature sent
  = (try_except (resp <- endpoint req ;; handle_response resp)
       (fun e => Return (PyStr (communication_error e))),
     snd (encode_image_to_b64 image),
     (sent ++ [req])%list).
Proof.
  unfold analyze_food_image, post.
  destruct (encode_image_to_b64 image) as [[s|e] image']; cbn [fst snd];
    [intros [= ->]; reflexivity | discriminate].
Qed.

(** The outcomes of the statements after the [post]. *)
Lemma handle_response_cases resp :
  (forall e, json resp = Raise e -> is_Exception e = true) ->
  (exists s, handle_response resp = Return (PyStr s))
  \/ (exists data v, ok resp = true /\ json resp = Return data /\
        first_choice_content data = Return v /\
        handle_response resp = Return v)
  \/ (exists e, handle_response resp = Raise e /\ is_Exception e = true).
Proof.
  intros Hjson. unfold handle_response.
  destruct (status_code resp =? 413); [left; eauto|].
  unfold not_ok_block.
  destruct (ok resp) eqn:Hok; cbn [negb bind].
  - destruct (json resp) as [data|e] eqn:Ej; cbn [bind].
    + destruct (first_choice_content data) as [v|e] eqn:Ec.
      * right; left. exists data, v. auto.
      * right; right. exists e. split; [reflexivity|].
        eapply first_choice_content_raises; eassumption.
    + right; right. exists e. auto.
  - destruct (json resp) as [body|e] eqn:Ej; cbn [bind try_except].
    + left; eauto.
    + rewrite (Hjson e eq_refl).
      destruct (raise_for_status_not_ok resp Hok) as [msg ->]. cbn [bind].
      right; right. exists (HTTPError msg). auto.
Qed.


(** C2: when the answer to the request has a status from 200 to 299 and
    its JSON body is an object whose ["choices"] is a list that starts with
    an object whose ["message"] is an object whose ["content"] is a string,
    [analyze_food_image] returns that string as it is. *)
Theorem analyze_food_image_success
  prompt image temperature sent img_b64 resp data first rest message content :
  fst (encode_image_to_b64 image) = Return img_b64 ->
  endpoint (build_request GROQ_API_KEY (build_payload prompt img_b64 temperature))
  = Return resp ->
  200 <= status_code resp < 300 ->
  json resp = Return (PyDict data) ->
  lookup "choices" data = Some (PyList (PyDict first :: rest)) ->
  lookup "message" first = Some (PyDict message) ->
  lookup "content" message = Some (PyStr content) ->
  returned (analyze_food_image GROQ_API_KEY prompt image temperature sent)
  = Return (PyStr content).
Proof.
  intros Henc Hreq Hstatus Hjson Hchoices Hmessage Hcontent.
  rewrite (analyze_food_image_encoded _ _ _ _ _ Henc). cbv zeta.
  unfold returned. cbn [fst]. rewrite Hreq. cbn [bind].
  unfold handle_response.
  destruct (status_code resp =? 413) eqn:E413; [lia|].
  assert (Hok : ok resp = true).
  { destruct (ok resp) eqn:Hok; [reflexivity|]. apply ok_false_iff in Hok. lia. }
  unfold not_ok_block. rewrite Hok. cbn [negb bind]. rewrite Hjson. cbn [bind].
  unfold first_choice_content. cbn [getitem_str]. rewrite Hchoices. cbn [bind].
  rewrite getitem_int_first. cbn [bind getitem_str].
  rewrite Hmessage. cbn [bind getitem_str].
  now rewrite Hcontent.
Qed.

(** C3: when the answer to the request has status 413,
    [analyze_food_image] returns the one advisory text, whatever the
    request and whatever the body, and raises nothing. *)
Theorem analyze_food_image_too_large
  prompt image temperature sent img_b64 resp :
  fst (encode_image_to_b64 image) = Return img_b64 ->
  endpoint (build_request GROQ_API_KEY (build_payload prompt img_b64 temperature))
  = Return resp ->
  status_code resp = 413 ->
  returned (analyze_food_image GROQ_API_KEY prompt image temperature sent)
  = Return (PyStr "⚠️ The image is still too large. Try uploading a smaller image.").
Proof.
  intros Henc Hreq Hstatus.
  rewrite (analyze_food_image_encoded _ _ _ _ _ Henc). cbv zeta.
  unfold returned. cbn [fst]. rewrite Hreq. cbn [bind].
  unfold handle_response. rewrite Hstatus. reflexivity.
Qed.

(** C4, as amended: when the answer to the request has a status from 400
    to 599 other than 413 (the statuses on which [resp.ok] is false), the
    body is parsed as JSON; when that succeeds, [analyze_food_image]
    returns the API-error string made of the status code and the parsed
    body; when it fails, the [HTTPError] of [raise_for_status] is raised
    out of the [try] block, and the outer handler returns the
    communication-error string for it. *)
Theorem analyze_food_image_api_error
  prompt image temperature sent img_b64 resp :
  fst (encode_image_to_b64 image) = Return img_b64 ->
  endpoint (build_request GROQ_API_KEY (build_payload prompt img_b64 temperature))
  = Return resp ->
  400 <= status_code resp < 600 ->
  status_code resp <> 413 ->
  (forall body, json resp = Return body ->
     returned (analyze_food_image GROQ_API_KEY prompt image temperature sent)
     = Return (PyStr ("⚠️ API error " ++ int_repr (status_code resp) ++ ": "
                        ++ py_str body)))
  /\
  (forall e, json resp = Raise e -> is_Exception e = true ->
     exists msg,
       raise_for_status resp = Raise (HTTPError msg) /\
       handle_response resp = Raise (HTTPError msg) /\
       returned (analyze_food_image GROQ_API_KEY prompt image temperature sent)
       = Return (PyStr ("⚠️ Error communicating with Groq API: " ++ msg))).
Proof.
  intros Henc Hreq Hrange Hstatus.
  assert (Hok : ok resp = false) by now apply ok_false_iff.
  rewrite (analyze_food_image_encoded _ _ _ _ _ Henc). cbv zeta.
  unfold returned. cbn [fst]. rewrite Hreq. cbn [bind].
  assert (Hhandle : handle_response resp =
            r <- not_ok_block resp ;;
            match r with
            | Some v => Return v
            | None => data <- json resp ;; first_choice_content data
            end).
  { unfold handle_response.
    destruct (status_code resp =? 413) eqn:E; [lia | reflexivity]. }
  rewrite Hhandle. unfold not_ok_block. rewrite Hok. cbn [negb].
  split.
  - intros body ->. reflexivity.
  - intros e -> He. cbn [bind try_except]. rewrite He.
    destruct (raise_for_status_not_ok resp Hok) as [msg Hmsg].
    exists msg. rewrite Hmsg. cbn [bind try_except]. auto.
Qed.

(** C7: once the image is encoded, [analyze_food_image] sends one
    request; its body has one message, of role ["user"], whose content is
    the instruction text and then an [image_url] part whose url is
    ["data:image/jpeg;base64,"] followed by the base64 text; [max_tokens]
    is 700, [stream] is false, and [temperature] is the value the caller
    gave, whatever it is (0.0 and 1.0 included). *)
Theorem analyze_food_image_request prompt image temperature sent img_b64 :
  fst (encode_image_to_b64 image) = Return img_b64 ->
  exists req top message,
    requests_sent (analyze_food_image GROQ_API_KEY prompt image temperature sent)
    = (sent ++ [req])%list /\
    req_json req = PyDict top /\
    lookup "messages" top = Some (PyList [PyDict message]) /\
    lookup "role" message = Some (PyStr "user") /\
    lookup "content" message
    = Some (PyList
              [PyDict [("type", PyStr "text"); ("text", PyStr prompt)];
               PyDict
                 [("type", PyStr "image_url");
                  ("image_url",
                    PyDict [("url", PyStr ("data:image/jpeg;base64," ++ img_b64))])]]) /\
    lookup "max_tokens" top = Some (PyInt 700) /\
    lookup "stream" top = Some (PyBool false) /\
    lookup "temperature" top = Some (PyFloat temperature).
Proof.
  intros Henc.
  rewrite (analyze_food_image_encoded _ _ _ _ _ Henc). cbv zeta.
  unfold requests_sent. cbn [snd].
  eexists _, _, _. split; [reflexivity|].
  unfold build_request, build_payload. cbn [req_json].
  split; [reflexivity|]. repeat split.
Qed.

(** C10: the image is encoded before the [try] statement begins: when
    the encode step raises, [analyze_food_image] raises the same exception
    to its caller, returns no communication-error string, and sends no
    request. *)
Theorem analyze_food_image_encode_raises prompt image temperature sent e :
  fst (encode_image_to_b64 image) = Raise e ->
  analyze_food_image GROQ_API_KEY prompt image temperature sent
  = (Raise e, snd (encode_image_to_b64 image), sent).
Proof.
  unfold analyze_food_image.
  destruct (encode_image_to_b64 image) as [[s|e'] image']; cbn [fst snd];
    [discriminate | now intros [= ->]].
Qed.

(** *** The upload block of the page *)


End Pipeline.

End AppFacts.

(* ================================================================= *)
(** ** The concrete world meets the contract, and runs *)

Module MockFacts.

Import Base64 PIL Requests App Mock Base64Facts PILFacts AppFacts.

Lemma Z_of_byte_of_Z z : 0 <= z < 256 -> Z_of_byte (byte_of_Z z) = z.
Proof.
  intros Hz. unfold Z_of_byte, byte_of_Z, byte_of.
  destruct (Byte.of_N (Z.to_N z)) as [b|] eqn:E.
  - apply Byte.to_of_N in E. rewrite E. lia.
  - apply Byte.of_N_None_iff in E. lia.
Qed.

Lemma identify_header sz :
  jpeg_dimension (fst sz) -> jpeg_dimension (snd sz) ->
  identify (header tag_jpeg sz) = Return ("JPEG", "RGB", sz).
Proof.
  destruct sz as [w h]. unfold jpeg_dimension. cbn [fst snd]. intros Hw Hh.
  unfold header. cbn [identify pillow fst snd].
  change (Byte.eqb tag_jpeg tag_jpeg) with true. cbn iota.
  rewrite !Z_of_byte_of_Z
    by (Z.to_euclidean_division_equations; lia).
  do 3 f_equal; Z.to_euclidean_division_equations; lia.
Qed.

Lemma in_range_dimension n : in_range n = true <-> jpeg_dimension n.
Proof. unfold in_range, jpeg_dimension. lia. Qed.

Lemma pillow_contract : Contract.
Proof.
  split.
  - intros m px. exists px. reflexivity.
  - intros src dst px _ _. exists px. reflexivity.
  - intros sz px q Hw Hh. exists (header tag_jpeg sz).
    cbn [jpeg_encode pillow].
    apply in_range_dimension in Hw, Hh. now rewrite Hw, Hh.
  - intros m sz px q bs. cbn [jpeg_encode pillow].
    destruct (String.eqb m "RGB"); [|discriminate].
    destruct (in_range (fst sz)) eqn:Ew; [|discriminate].
    destruct (in_range (snd sz)) eqn:Eh; [|discriminate].
    intros _. split; now apply in_range_dimension.
  - intros m sz px q bs. cbn [jpeg_encode pillow].
    destruct (String.eqb m "RGB"); [|discriminate].
    destruct (in_range (fst sz)) eqn:Ew; [|discriminate].
    destruct (in_range (snd sz)) eqn:Eh; [|discriminate].
    cbn [andb]. intros [= <-]. exists "RGB". split; [|split].
    + apply identify_header; now apply in_range_dimension.
    + reflexivity.
    + exists tt. reflexivity.
Qed.


(** The text for the prepared image decodes to a JPEG of 900 by 600. *)
Lemma encode_image_to_b64_round_trip_witness :
  exists text jpeg m px,
    fst (encode_image_to_b64 prepared) = Return text /\
    b64decode (list_byte_of_string text) = Some jpeg /\
    identify jpeg = Return ("JPEG", m, (900, 600)) /\
    decode_pixels jpeg = Return px.
Proof.
  apply (encode_image_to_b64_round_trip pillow_contract photo prepared).
  reflexivity.
Defined.



(** The answer 200 of the specification. *)
Lemma analyze_food_image_success_witness :
  returned (@analyze_food_image interpreter pillow (answering apple) key
              question prepared one [])
  = Return (PyStr "Apple — ~95 cal").
Proof.
  apply (@analyze_food_image_success interpreter pillow (answering apple) key
           question prepared one [] "SgOEAlg=" apple
           [("choices",
              PyList [PyDict [("message",
                                PyDict [("content", PyStr "Apple — ~95 cal")])]])]
           [("message", PyDict [("content", PyStr "Apple — ~95 cal")])]
           []
           [("content", PyStr "Apple — ~95 cal")]);
    try reflexivity.
  cbn. lia.
Defined.

Lemma analyze_food_image_too_large_witness :
  returned (@analyze_food_image interpreter pillow (answering payload_too_large)
              key question prepared one [])
  = Return (PyStr "⚠️ The image is still too large. Try uploading a smaller image.").
Proof.
  apply (@analyze_food_image_too_large interpreter pillow
           (answering payload_too_large) key question prepared one []
           "SgOEAlg=" payload_too_large);
    reflexivity.
Defined.

(** The answer 500 of the specification, and an answer 502 whose body is
    not JSON. *)
Lemma analyze_food_image_api_error_witness :
  returned (@analyze_food_image interpreter pillow (answering server_error) key
              question prepared one [])
  = Return (PyStr "⚠️ API error 500: {'error': 'bad request'}")
  /\ exists msg,
       raise_for_status bad_gateway = Raise (HTTPError msg) /\
       handle_response bad_gateway = Raise (HTTPError msg) /\
       returned (@analyze_food_image interpreter pillow (answering bad_gateway)
                   key question prepared one [])
       = Return (PyStr ("⚠️ Error communicating with Groq API: " ++ msg)).
Proof.
  split.
  - apply (proj1 (@analyze_food_image_api_error interpreter pillow
                    (answering server_error) key question prepared one []
                    "SgOEAlg=" server_error eq_refl eq_refl ltac:(cbn; lia)
                    ltac:(discriminate))
             (PyDict [("error", PyStr "bad request")])).
    reflexivity.
  - apply (proj2 (@analyze_food_image_api_error interpreter pillow
                    (answering bad_gateway) key question prepared one []
                    "SgOEAlg=" bad_gateway eq_refl eq_refl ltac:(cbn; lia)
                    ltac:(discriminate))
             (Exc "JSONDecodeError" "Expecting value: line 1 column 1 (char 0)"));
      reflexivity.
Defined.

(** An answer 302 whose body is JSON: the response is [ok], so the body
    is read as a completion, and what comes back is the communication
    error for the missing key, with neither the status nor the body. *)
Lemma analyze_food_image_redirect :
  status_code found = 302
  /\ json found = Return (PyDict [("error", PyStr "moved")])
  /\ returned (@analyze_food_image interpreter pillow (answering found) key
                 question prepared one [])
     = Return (PyStr "⚠️ Error communicating with Groq API: 'choices'").
Proof. repeat split. Qed.

(** The request at the two ends of the temperature slider. *)
Lemma analyze_food_image_request_witness :
  (exists req top message,
     requests_sent (@analyze_food_image interpreter pillow (answering apple) key
                      question prepared zero [])
     = [req] /\
     req_json req = PyDict top /\
     lookup "messages" top = Some (PyList [PyDict message]) /\
     lookup "role" message = Some (PyStr "user") /\
     lookup "content" message
     = Some (PyList
               [PyDict [("type", PyStr "text"); ("text", PyStr question)];
                PyDict
                  [("type", PyStr "image_url");
                   ("image_url",
                     PyDict [("url", PyStr "data:image/jpeg;base64,SgOEAlg=")])]]) /\
     lookup "max_tokens" top = Some (PyInt 700) /\
     lookup "stream" top = Some (PyBool false) /\
     lookup "temperature" top = Some (PyFloat zero))
  /\
  (exists req top message,
     requests_sent (@analyze_food_image interpreter pillow (answering apple) key
                      question prepared one [])
     = [req] /\
     req_json req = PyDict top /\
     lookup "messages" top = Some (PyList [PyDict message]) /\
     lookup "role" message = Some (PyStr "user") /\
     lookup "content" message
     = Some (PyList
               [PyDict [("type", PyStr "text"); ("text", PyStr question)];
                PyDict
                  [("type", PyStr "image_url");
                   ("image_url",
                     PyDict [("url", PyStr "data:image/jpeg;base64,SgOEAlg=")])]]) /\
     lookup "max_tokens" top = Some (PyInt 700) /\
     lookup "stream" top = Some (PyBool false) /\
     lookup "temperature" top = Some (PyFloat one)).
Proof.
  split.
  - apply (@analyze_food_image_request interpreter pillow (answering apple) key
             question prepared zero [] "SgOEAlg=").
    reflexivity.
  - apply (@analyze_food_image_request interpreter pillow (answering apple) key
             question prepared one [] "SgOEAlg=").
    reflexivity.
Defined.


Lemma analyze_food_image_encode_raises_witness :
  @analyze_food_image interpreter pillow (answering apple) key
    question with_alpha one []
  = (Raise (Exc "OSError" "cannot write mode RGBA as JPEG"), with_alpha, []).
Proof.
  apply (@analyze_food_image_encode_raises interpreter pillow (answering apple)
           key question with_alpha one []).
  reflexivity.
Defined.

End MockFacts.

(* ================================================================= *)
(** ** More about the operations: errors, shapes, composition *)

Module ExtraFacts.

Import Base64 PIL Requests App Page Base64Facts PILFacts AppFacts.

(** *** The base64 text *)

Lemma b64encode_length bs :
  Z.of_nat (List.length (b64encode bs))
  = 4 * ((Z.of_nat (List.length bs) + 2) / 3).
Proof.
  induction bs as [|a|a b|a b c rest IH] using list_ind3; cbn [b64encode].
  - reflexivity.
  - destruct (sextets _) as [[[s0 s1] s2] s3]. reflexivity.
  - destruct (sextets _) as [[[s0 s1] s2] s3]. reflexivity.
  - destruct (sextets _) as [[[s0 s1] s2] s3].
    cbn [List.length]. rewrite !Nat2Z.inj_succ, IH.
    Z.to_euclidean_division_equations; lia.
Qed.

Lemma sextet_char_in i : In (sextet_char i) (pad :: alphabet).
Proof.
  unfold sextet_char.
  destruct (Nat.lt_ge_cases (N.to_nat i) (List.length alphabet)) as [Hi|Hi].
  - right. now apply nth_In.
  - left. now rewrite nth_overflow.
Qed.

Lemma b64encode_alphabet bs :
  Forall (fun c => In c (pad :: alphabet)) (b64encode bs).
Proof.
  induction bs as [|a|a b|a b c rest IH] using list_ind3; cbn [b64encode].
  - constructor.
  - destruct (sextets _) as [[[s0 s1] s2] s3].
    do 2 (apply Forall_cons; [apply sextet_char_in|]).
    do 2 (apply Forall_cons; [now left|]). constructor.
  - destruct (sextets _) as [[[s0 s1] s2] s3].
    do 3 (apply Forall_cons; [apply sextet_char_in|]).
    apply Forall_cons; [now left | constructor].
  - destruct (sextets _) as [[[s0 s1] s2] s3].
    do 4 (apply Forall_cons; [apply sextet_char_in|]). exact IH.
Qed.

Lemma string_of_list_byte_length bs :
  String.length (string_of_list_byte bs) = List.length bs.
Proof.
  induction bs as [|b bs IH]; [reflexivity|].
  change (S (String.length (string_of_list_byte bs)) = S (List.length bs)).
  now f_equal.
Qed.

Section Pipeline.
Context `{Interpreter} `{Pillow} `{Network}.
Variable GROQ_API_KEY : string.

(** *** [encode_image_to_b64] *)

Lemma encode_image_to_b64_saved image :
  fst (encode_image_to_b64 image)
  = (buf <- fst (save_jpeg image 80) ;;
     Return (string_of_list_byte (b64encode buf))).
Proof.
  unfold encode_image_to_b64.
  destruct (save_jpeg image 80) as [[buf|e] image']; cbn [fst bind];
    [apply bytes_decode_b64encode | reflexivity].
Qed.

(** X1: [encode_image_to_b64] raises exactly when the [save] of the
    image raises, and then the same exception: turning the base64 bytes
    into text never fails. *)
Theorem encode_image_to_b64_raises image e :
  fst (encode_image_to_b64 image) = Raise e
  <-> fst (save_jpeg image 80) = Raise e.
Proof.
  rewrite encode_image_to_b64_saved.
  destruct (fst (save_jpeg image 80)) as [buf|e']; cbn [bind];
    split; congruence.
Qed.

(** X2: when the [save] writes [buf], [encode_image_to_b64] returns the
    base64 of [buf]: a text of letters, digits, [+], [/] and [=] only,
    whose length is four characters for every three bytes of [buf],
    rounded up. *)
Theorem encode_image_to_b64_text image buf :
  fst (save_jpeg image 80) = Return buf ->
  exists text,
    fst (encode_image_to_b64 image) = Return text /\
    list_byte_of_string text = b64encode buf /\
    Z.of_nat (String.length text) = 4 * ((Z.of_nat (List.length buf) + 2) / 3) /\
    Forall (fun c => In c (pad :: alphabet)) (list_byte_of_string text).
Proof.
  intros Hs. exists (string_of_list_byte (b64encode buf)).
  rewrite encode_image_to_b64_saved, Hs. cbn [bind].
  rewrite list_byte_of_string_of_list_byte, string_of_list_byte_length.
  split; [reflexivity|]. split; [reflexivity|].
  split; [apply b64encode_length | apply b64encode_alphabet].
Qed.

(** *** [prepare_image] *)

(** X3: whatever the format and the mode of the upload, an image that
    [prepare_image] returns is a JPEG file in mode RGB, of 1 to 65500
    pixels a side, opened and not yet decoded. *)
Theorem prepare_image_normal_form (C : Contract) uploaded_file image :
  prepare_image uploaded_file = Return image ->
  im_format image = Some "JPEG" /\ im_mode image = "RGB" /\
  jpeg_dimension (width image) /\ jpeg_dimension (height image) /\
  exists buf,
    im_data image = Pending buf /\
    identify buf = Return ("JPEG", "RGB", im_size image).
Proof.
  intros Hp.
  destruct (prepare_image_Return C _ _ Hp) as (sz & px & buf & Hbuf & ->).
  destruct (jpeg_written_size C _ _ _ _ _ Hbuf) as [Hw Hh].
  destruct (jpeg_reads_back C _ _ _ _ _ Hbuf) as (m' & Hid & Hrgb & _).
  rewrite (Hrgb eq_refl) in Hid.
  unfold width, height. cbn [im_format im_mode im_size im_data].
  split; [reflexivity|]. split; [reflexivity|].
  split; [exact Hw|]. split; [exact Hh|].
  exists buf. split; [reflexivity | exact Hid].
Qed.


(** X5: an upload that is no image, or whose pixels do not decode, makes
    [prepare_image] raise what the decoder raised, and the upload block,
    when the size passes, ends the run with that exception before
    anything is shown. *)
Theorem prepare_image_undecodable uploaded_file e :
  identify (content uploaded_file) = Raise e
  \/ (exists header, identify (content uploaded_file) = Return header /\
                     decode_pixels (content uploaded_file) = Raise e) ->
  prepare_image uploaded_file = Raise e /\
  (size uploaded_file <= 4194304 ->
   upload_block (Some uploaded_file) = ([], Crashed e)).
Proof.
  intros Hbad.
  assert (Hp : prepare_image uploaded_file = Raise e).
  { unfold prepare_image, Image_open at 1.
    destruct Hbad as [-> | ([[fmt m] sz] & -> & Hpx)]; [reflexivity|].
    cbn [bind]. unfold convert, load. cbn [im_data]. now rewrite Hpx. }
  split; [exact Hp|]. intros Hsize. unfold upload_block.
  change (4 * 1024 * 1024) with 4194304.
  destruct (size uploaded_file >? 4194304) eqn:E; [lia|].
  unfold show_prepared. now rewrite Hp.
Qed.

(** *** [analyze_food_image] *)

(** A response that is [ok] and not 413 is read as a completion. *)
Lemma handle_response_ok resp :
  status_code resp <> 413 -> ~ 400 <= status_code resp < 600 ->
  handle_response resp = (data <- json resp ;; first_choice_content data).
Proof.
  intros H413 Hrange. unfold handle_response, not_ok_block.
  destruct (status_code resp =? 413) eqn:E; [lia|].
  destruct (ok resp) eqn:Hok; [reflexivity|].
  apply ok_false_iff in Hok. contradiction.
Qed.

(** X6: a response that is [ok], not 413, and whose JSON body lacks what
    [data["choices"][0]["message"]["content"]] reads, makes
    [analyze_food_image] return the communication error that names what
    is missing: the key in quotes for a missing key, and
    [list index out of range] for an empty list of choices. *)
Theorem analyze_food_image_malformed_body
  prompt image temperature sent img_b64 resp data :
  fst (encode_image_to_b64 image) = Return img_b64 ->
  endpoint (build_request GROQ_API_KEY (build_payload prompt img_b64 temperature))
  = Return resp ->
  status_code resp <> 413 -> ~ 400 <= status_code resp < 600 ->
  json resp = Return (PyDict data) ->
  let result :=
    returned (analyze_food_image GROQ_API_KEY prompt image temperature sent) in
  (lookup "choices" data = None ->
   result = Return (PyStr "⚠️ Error communicating with Groq API: 'choices'"))
  /\ (lookup "choices" data = Some (PyList []) ->
      result = Return (PyStr "⚠️ Error communicating with Groq API: list index out of range"))
  /\ (forall first rest,
        lookup "choices" data = Some (PyList (PyDict first :: rest)) ->
        lookup "message" first = None ->
        result = Return (PyStr "⚠️ Error communicating with Groq API: 'message'"))
  /\ (forall first rest message,
        lookup "choices" data = Some (PyList (PyDict first :: rest)) ->
        lookup "message" first = Some (PyDict message) ->
        lookup "content" message = None ->
        result = Return (PyStr "⚠️ Error communicating with Groq API: 'content'")).
Proof.
  intros Henc Hreq H413 Hrange Hjson result. subst result.
  rewrite (analyze_food_image_encoded _ _ _ _ _ _ Henc). cbv zeta.
  unfold returned. cbn [fst]. rewrite Hreq. cbn [bind].
  rewrite (handle_response_ok _ H413 Hrange), Hjson. cbn [bind].
  unfold first_choice_content. cbn [getitem_str].
  repeat split.
  - intros ->. reflexivity.
  - intros ->. reflexivity.
  - intros first rest -> Hm. cbn [bind]. rewrite getitem_int_first.
    cbn [bind getitem_str]. rewrite Hm. reflexivity.
  - intros first rest message -> Hm Hc. cbn [bind]. rewrite getitem_int_first.
    cbn [bind getitem_str]. rewrite Hm. cbn [bind getitem_str]. rewrite Hc.
    reflexivity.
Qed.

(** X7: an exception that is no [Exception] ([KeyboardInterrupt],
    [SystemExit]) is not turned into text: raised by the request, or by
    the parsing of the body of a response that is not 413, it leaves
    [analyze_food_image] as it is, after the one request went out. *)
Theorem analyze_food_image_interrupt
  prompt image temperature sent img_b64 e :
  fst (encode_image_to_b64 image) = Return img_b64 ->
  is_Exception e = false ->
  let req := build_request GROQ_API_KEY (build_payload prompt img_b64 temperature) in
  endpoint req = Raise e
  \/ (exists resp, endpoint req = Return resp /\ status_code resp <> 413 /\
                   json resp = Raise e) ->
  analyze_food_image GROQ_API_KEY prompt image temperature sent
  = (Raise e, snd (encode_image_to_b64 image), (sent ++ [req])%list).
Proof.
  intros Henc He req Hraise.
  rewrite (analyze_food_image_encoded _ _ _ _ _ _ Henc). fold req.
  do 2 f_equal.
  destruct Hraise as [-> | (resp & -> & H413 & Hjson)]; cbn [bind try_except].
  - now rewrite He.
  - unfold handle_response, not_ok_block.
    destruct (status_code resp =? 413) eqn:E; [lia|].
    rewrite Hjson.
    destruct (ok resp); cbn [negb bind try_except]; rewrite He;
      cbn [bind try_except]; now rewrite ?He.
Qed.


Lemma encode_image_to_b64_loaded image px image' :
  load image = Return (px, image') ->
  encode_image_to_b64 image' = encode_image_to_b64 image.
Proof.
  intros Hl. unfold encode_image_to_b64, save_jpeg.
  now rewrite (load_idempotent _ _ _ Hl), Hl.
Qed.

(** X9: whether the image was decoded before the call (as showing it
    does) changes nothing: on the image as [load] leaves it,
    [analyze_food_image] returns the same, leaves the same image and
    sends the same request. *)
Theorem analyze_food_image_after_load
  prompt image temperature sent px image' :
  load image = Return (px, image') ->
  analyze_food_image GROQ_API_KEY prompt image' temperature sent
  = analyze_food_image GROQ_API_KEY prompt image temperature sent.
Proof.
  intros Hl. unfold analyze_food_image.
  now rewrite (encode_image_to_b64_loaded _ _ _ Hl).
Qed.

(** X10: a call never changes what the image is: after it the image has
    the format, the mode and the size it had, and when the encode step
    succeeded it holds its decoded pixels. *)
Theorem analyze_food_image_keeps_image prompt image temperature sent :
  let after :=
    snd (fst (analyze_food_image GROQ_API_KEY prompt image temperature sent)) in
  im_format after = im_format image /\ im_mode after = im_mode image /\
  im_size after = im_size image /\
  ((exists text, fst (encode_image_to_b64 image) = Return text) ->
   exists px, im_data after = Loaded px).
Proof.
  unfold analyze_food_image, post, encode_image_to_b64, save_jpeg.
  destruct (load image) as [[px im1]|e] eqn:El.
  - destruct (load_keeps _ _ _ El) as (Hd & Hm & Hs & Hf).
    destruct (jpeg_encode (im_mode im1) (im_size im1) px 80) as [buf|e];
      cbn [bind fst snd].
    + rewrite bytes_decode_b64encode. cbn [fst snd]. eauto 6.
    + cbn [fst snd]. eauto 6.
  - cbn [bind fst snd]. repeat split. intros [text Ht]. discriminate.
Qed.

(** With collaborators that raise only [Exception]s, the [try]
    statement around the request always returns. *)
Lemma try_block_returns req :
  (forall req e, endpoint req = Raise e -> is_Exception e = true) ->
  (forall req resp e, endpoint req = Return resp -> json resp = Raise e ->
     is_Exception e = true) ->
  exists v,
    try_except (resp <- endpoint req ;; handle_response resp)
      (fun e => Return (PyStr (communication_error e))) = Return v.
Proof.
  intros Hnet Hjson.
  destruct (endpoint req) as [resp|e] eqn:Ereq; cbn [bind try_except].
  - destruct (handle_response_cases resp (fun e => Hjson req resp e Ereq))
      as [(s & ->) | [(data & v & _ & _ & _ & ->) | (e & -> & He)]];
      cbn [try_except]; [eauto | eauto | rewrite He; eauto].
  - rewrite (Hnet req e Ereq). eauto.
Qed.

(** X11: the two operations compose. For every image that
    [prepare_image] returns, with a codec that meets [Contract] and
    collaborators that raise only [Exception]s, [analyze_food_image]
    returns a value and raises nothing, and it sends exactly one request,
    whose base64 text decodes to a JPEG of the size of the image. *)
Theorem analyze_food_image_prepared
  (C : Contract) uploaded_file prompt image temperature sent :
  prepare_image uploaded_file = Return image ->
  (forall req e, endpoint req = Raise e -> is_Exception e = true) ->
  (forall req resp e, endpoint req = Return resp -> json resp = Raise e ->
     is_Exception e = true) ->
  exists v text jpeg,
    analyze_food_image GROQ_API_KEY prompt image temperature sent
    = (Return v, snd (encode_image_to_b64 image),
       (sent ++ [build_request GROQ_API_KEY
                   (build_payload prompt text temperature)])%list) /\
    b64decode (list_byte_of_string text) = Some jpeg /\
    identify jpeg = Return ("JPEG", "RGB", im_size image).
Proof.
  intros Hp Hnet Hjson.
  destruct (prepare_image_Return C _ _ Hp) as (sz & px & buf & Hbuf & ->).
  destruct (encode_image_to_b64_prepared C _ _ _ Hbuf)
    as (px' & jpeg & _ & Hjpeg & Henc).
  destruct (jpeg_reads_back C _ _ _ _ _ Hjpeg) as (m & Hid & Hrgb & _).
  rewrite (Hrgb eq_refl) in Hid.
  set (text := string_of_list_byte (b64encode jpeg)) in *.
  assert (Hfst : fst (encode_image_to_b64
                        {| im_format := Some "JPEG"; im_mode := "RGB";
                           im_size := sz; im_data := Pending buf |})
                 = Return text) by now rewrite Henc.
  rewrite (analyze_food_image_encoded _ _ _ _ _ _ Hfst). cbv zeta.
  destruct (try_block_returns
              (build_request GROQ_API_KEY (build_payload prompt text temperature))
              Hnet Hjson) as [v ->].
  exists v, text, jpeg. split; [reflexivity|]. split; [|exact Hid].
  unfold text. now rewrite list_byte_of_string_of_list_byte, b64decode_b64encode.
Qed.

End Pipeline.

(** *** The page script *)

Section Script.
Context `{Interpreter} `{Pillow} `{Network}.

Lemma upload_block_Continue uploaded shown image :
  upload_block uploaded = (shown, Continue (Some image)) ->
  exists up,
    uploaded = Some up /\ size up <= 4194304 /\
    prepare_image up = Return image /\
    shown = [st_image image "Uploaded Image"].
Proof.
  unfold upload_block. destruct uploaded as [up|]; [|discriminate].
  change (4 * 1024 * 1024) with 4194304.
  destruct (size up >? 4194304) eqn:E; [discriminate|].
  unfold show_prepared.
  destruct (prepare_image up) as [im|e] eqn:Ep; [|discriminate].
  intros [= <- <-]. exists up.
  split; [reflexivity|]. split; [lia|]. split; [exact Ep | reflexivity].
Qed.

(** The key a run goes on with is one that counts as true, and it is the
    environment's when that is not empty. *)
Lemma load_key_env env secret s :
  env = Some s -> s <> "" -> load_key env secret = Return (PyStr s).
Proof.
  intros -> Hs. unfold load_key. cbn [truthy].
  destruct (String.eqb s "") eqn:E; [|reflexivity].
  apply String.eqb_eq in E. contradiction.
Qed.

(** Everything about a request that a run sent. *)
Lemma run_sent (i : Inputs) req :
  In req (requests_sent (run i)) ->
  exists k up image text,
    load_key (env_key i) (secret_key i) = Return k /\ truthy k = true /\
    button i = true /\ file_uploader i = Some up /\ size up <= 4194304 /\
    prepare_image up = Return image /\
    fst (encode_image_to_b64 image) = Return text /\
    req = build_request (py_str k) (build_payload (text_area i) text (slider i)) /\
    requests_sent (run i) = [req].
Proof.
  unfold run, requests_sent.
  destruct (load_key (env_key i) (secret_key i)) as [k|e] eqn:Ek;
    [|intros []].
  destruct (truthy k) eqn:Et; cbn [negb]; [|intros []].
  destruct (upload_block (file_uploader i)) as [shown [[image|]| |e]] eqn:Eu;
    cbn [snd]; try (intros []).
  - apply upload_block_Continue in Eu as (up & Hup & Hsize & Hprep & _).
    unfold analyze_block.
    destruct (button i) eqn:Eb; [|intros []].
    unfold analyze_food_image, post.
    destruct (encode_image_to_b64 image) as [[text|e] image'] eqn:Ee.
    + match goal with
      | |- context [try_except ?b ?h] => destruct (try_except b h)
      end; cbn [snd app]; intros [<- | []];
        exists k, up, image, text; rewrite Ee; repeat split; auto.
    + cbn [snd]. intros [].
  - unfold analyze_block. destruct (button i); intros [].
Qed.

(** X12: a run never sends a request without a credential: every
    request it sends carries [Authorization: Bearer] followed by a key
    that counts as true, which is the value of the environment variable
    when that is set and not empty, and the secret otherwise; the only
    other header is the JSON content type. *)
Theorem run_sends_credential (i : Inputs) req :
  In req (requests_sent (run i)) ->
  exists k,
    load_key (env_key i) (secret_key i) = Return k /\ truthy k = true /\
    req_headers req = [("Authorization", "Bearer " ++ py_str k);
                       ("Content-Type", "application/json")] /\
    (forall s, env_key i = Some s -> s <> "" -> k = PyStr s) /\
    (env_key i = None \/ env_key i = Some "" -> secret_key i = Return k).
Proof.
  intros Hin.
  destruct (run_sent i req Hin) as (k & up & image & text & Hk & Ht & _ & _ & _ & _ & _ & -> & _).
  exists k. split; [exact Hk|]. split; [exact Ht|]. split; [reflexivity|].
  split.
  - intros s Hs Hne. rewrite (load_key_env _ _ _ Hs Hne) in Hk. congruence.
  - intros Henv. unfold load_key in Hk.
    assert (Hfalse : truthy match env_key i with
                              | Some s => PyStr s
                              | None => PyNone
                              end = false)
      by (destruct Henv as [-> | ->]; reflexivity).
    rewrite Hfalse in Hk. cbn [negb] in Hk.
    destruct (secret_key i) as [k'|e]; cbn [try_except] in Hk; [exact Hk|].
    destruct (is_Exception e); [|discriminate].
    injection Hk as <-. discriminate.
Qed.

(** X13: a run halts at start-up with the missing-key error, before
    anything else is shown or sent, exactly when the environment variable
    is unset or empty and the secret store raises an [Exception] or gives
    a value that counts as false. *)
Theorem run_missing_key (i : Inputs) :
  run i = ([block (st_error missing_key_error)], Stopped, [])
  <-> (env_key i = None \/ env_key i = Some "") /\
      match secret_key i with
      | Return k => truthy k = false
      | Raise e => is_Exception e = true
      end.
Proof.
  split.
  - intros Hrun. unfold run in Hrun.
    destruct (load_key (env_key i) (secret_key i)) as [k|e] eqn:Ek;
      [|discriminate].
    destruct (truthy k) eqn:Et; cbn [negb] in Hrun.
    + exfalso.
      destruct (upload_block (file_uploader i)) as [shown [image| |e]];
        [destruct (analyze_block _ _ _ _ _ _) as [[out [u| |e]] sent]|..];
        discriminate.
    + unfold load_key in Ek.
      destruct (env_key i) as [s|]; cbn [truthy] in Ek.
      * destruct (String.eqb s "") eqn:Es; cbn [negb] in Ek.
        -- apply String.eqb_eq in Es. subst s. split; [now right|].
           destruct (secret_key i) as [k'|e]; cbn [try_except] in Ek.
           ++ now injection Ek as ->.
           ++ destruct (is_Exception e); [reflexivity | discriminate].
        -- injection Ek as <-. cbn [truthy] in Et. rewrite Es in Et.
           discriminate.
      * cbn [negb] in Ek. split; [now left|].
        destruct (secret_key i) as [k'|e]; cbn [try_except] in Ek.
        -- now injection Ek as ->.
        -- destruct (is_Exception e); [reflexivity | discriminate].
  - intros [Henv Hsec]. unfold run, load_key.
    assert (Hfalse : truthy match env_key i with
                              | Some s => PyStr s
                              | None => PyNone
                              end = false)
      by (destruct Henv as [-> | ->]; reflexivity).
    rewrite Hfalse. cbn [negb].
    destruct (secret_key i) as [k|e]; cbn [try_except].
    + now rewrite Hsec.
    + now rewrite Hsec.
Qed.

(** X14: a run contacts the remote service only on an accepted upload
    and a pressed button: every request it sends comes from a run where
    the button was pressed and a file of at most 4194304 bytes was
    uploaded that [prepare_image] returned an image for, and it is the
    only request of the run. *)
Theorem run_sends_only_on_demand (i : Inputs) req :
  In req (requests_sent (run i)) ->
  button i = true /\
  (exists up image,
     file_uploader i = Some up /\ size up <= 4194304 /\
     prepare_image up = Return image) /\
  requests_sent (run i) = [req].
Proof.
  intros Hin.
  destruct (run_sent i req Hin)
    as (k & up & image & text & _ & _ & Hb & Hup & Hsize & Hprep & _ & _ & Hone).
  split; [exact Hb|]. split; [eauto | exact Hone].
Qed.


End Script.

End ExtraFacts.

(* ================================================================= *)
(** ** The same, run on the concrete world *)

Module ExtraWitnesses.

Import Base64 PIL Requests App Page Mock MockPage.
Import Base64Facts PILFacts AppFacts MockFacts ExtraFacts.

Lemma encode_image_to_b64_text_witness :
  exists text,
    fst (encode_image_to_b64 prepared) = Return text /\
    list_byte_of_string text = b64encode (header tag_jpeg (900, 600)) /\
    Z.of_nat (String.length text)
    = 4 * ((Z.of_nat (List.length (header tag_jpeg (900, 600))) + 2) / 3) /\
    Forall (fun c => In c (pad :: alphabet)) (list_byte_of_string text).
Proof.
  apply (encode_image_to_b64_text prepared (header tag_jpeg (900, 600))).
  reflexivity.
Defined.

Lemma prepare_image_normal_form_witness :
  im_format prepared = Some "JPEG" /\ im_mode prepared = "RGB" /\
  jpeg_dimension (width prepared) /\ jpeg_dimension (height prepared) /\
  exists buf,
    im_data prepared = Pending buf /\
    identify buf = Return ("JPEG", "RGB", im_size prepared).
Proof.
  apply (prepare_image_normal_form pillow_contract photo prepared).
  reflexivity.
Defined.


Lemma prepare_image_undecodable_witness :
  prepare_image scribble
  = Raise (Exc "UnidentifiedImageError" "cannot identify image file")
  /\ (size scribble <= 4194304 ->
      upload_block (Some scribble)
      = ([], Crashed (Exc "UnidentifiedImageError" "cannot identify image file"))).
Proof.
  apply (prepare_image_undecodable scribble). left. reflexivity.
Defined.

Lemma analyze_food_image_malformed_body_witness :
  returned (@analyze_food_image interpreter pillow (answering no_choices) key
              question prepared one [])
  = Return (PyStr "⚠️ Error communicating with Groq API: 'choices'").
Proof.
  apply (proj1 (@analyze_food_image_malformed_body interpreter pillow
                  (answering no_choices) key question prepared one []
                  "SgOEAlg=" no_choices [("id", PyStr "chatcmpl-1")]
                  eq_refl eq_refl ltac:(discriminate) ltac:(cbn; lia) eq_refl)).
  reflexivity.
Defined.

Lemma analyze_food_image_interrupt_witness :
  @analyze_food_image interpreter pillow interrupted key question prepared one []
  = (Raise (BaseExc "KeyboardInterrupt" ""),
     snd (encode_image_to_b64 prepared),
     [@build_request key (build_payload question "SgOEAlg=" one)]).
Proof.
  apply (@analyze_food_image_interrupt interpreter pillow interrupted key
           question prepared one [] "SgOEAlg="
           (BaseExc "KeyboardInterrupt" "") eq_refl eq_refl).
  left. reflexivity.
Defined.

Lemma analyze_food_image_after_load_witness :
  @analyze_food_image interpreter pillow (answering apple) key question
    {| im_format := Some "JPEG"; im_mode := "RGB"; im_size := (900, 600);
       im_data := Loaded tt |} one []
  = @analyze_food_image interpreter pillow (answering apple) key question
      prepared one [].
Proof.
  apply (@analyze_food_image_after_load interpreter pillow (answering apple) key
           question prepared one [] tt).
  reflexivity.
Defined.

Lemma analyze_food_image_prepared_witness :
  exists v text jpeg,
    @analyze_food_image interpreter pillow (answering apple) key question
      prepared one []
    = (Return v, snd (encode_image_to_b64 prepared),
       [@build_request key (build_payload question text one)]) /\
    b64decode (list_byte_of_string text) = Some jpeg /\
    identify jpeg = Return ("JPEG", "RGB", im_size prepared).
Proof.
  apply (@analyze_food_image_prepared interpreter pillow (answering apple) key
           pillow_contract photo question prepared one []).
  - reflexivity.
  - intros req e [=].
  - intros req resp e [= <-] [=].
Defined.

Lemma run_sends_credential_witness :
  exists k,
    load_key (env_key pressed) (secret_key pressed) = Return k /\
    truthy k = true /\
    req_headers the_request = [("Authorization", "Bearer " ++ py_str k);
                               ("Content-Type", "application/json")] /\
    (forall s, env_key pressed = Some s -> s <> "" -> k = PyStr s) /\
    (env_key pressed = None \/ env_key pressed = Some "" ->
     secret_key pressed = Return k).
Proof.
  apply (@run_sends_credential interpreter pillow (answering apple) pressed
           the_request).
  vm_compute. left. reflexivity.
Defined.

Lemma run_sends_only_on_demand_witness :
  button pressed = true /\
  (exists up image,
     file_uploader pressed = Some up /\ size up <= 4194304 /\
     prepare_image up = Return image) /\
  requests_sent (@run interpreter pillow (answering apple) pressed)
  = [the_request].
Proof.
  apply (@run_sends_only_on_demand interpreter pillow (answering apple) pressed
           the_request).
  vm_compute. left. reflexivity.
Defined.


End ExtraWitnesses.
